(** * Tag creation commands (superset/tags/commands/create.py)

    A shallow embedding of [CreateCustomTagCommand] and
    [CreateCustomTagWithRelationshipsCommand]: their [validate] and [run]
    methods over an explicit world (the persistence store behind [TagDAO] and
    [db.session], plus the sequence of calls the command made), with Python
    exceptions as an outcome of every step. *)

From Stdlib Require Import List String Ascii ZArith Bool Lia DecimalString.
Import ListNotations.
Open Scope string_scope.
Open Scope Z_scope.

(* ------------------------------------------------------------------ *)
(** ** Python values used by the commands *)

(** Modelled from the spec: the [ObjectTypes] enumeration lives in
    superset/tags/models.py, which is not part of the sources at hand; the
    members are the categories the spec lists for ObjectType. *)
Inductive ObjectTypes := chart | dashboard | query | saved_query.

(** Modelled from the spec: [TagTypes] is in the same missing module; the
    spec's TagKind has custom tags, the only kind the commands produce, and
    system-derived ones. *)
Inductive TagTypes := custom | derived.

(** The value handed in as an object type: [to_object_type] accepts
    [Union[ObjectTypes, int, str]]. *)
Inductive Token :=
| TokStr (s : string)
| TokInt (n : Z)
| TokEnum (t : ObjectTypes).

Definition ObjectTypes_name (t : ObjectTypes) : string :=
  match t with
  | chart => "chart"
  | dashboard => "dashboard"
  | query => "query"
  | saved_query => "saved_query"
  end.

(** [str(n)] for a Python int. *)
Definition str_int (n : Z) : string := NilZero.string_of_int (Z.to_int n).

(** What an f-string writes for [{tok}]. *)
Definition str_Token (tok : Token) : string :=
  match tok with
  | TokStr s => s
  | TokInt n => str_int n
  | TokEnum t => "ObjectTypes." ++ ObjectTypes_name t
  end.

(** What an f-string writes for an [Optional[ObjectTypes]]. *)
Definition str_optional (o : option ObjectTypes) : string :=
  match o with
  | None => "None"
  | Some t => "ObjectTypes." ++ ObjectTypes_name t
  end.

(** A [string] stands for a Python [str] whose code points are below 256,
    one character per code point.  [str.isspace] on that range: TAB, LF, VT,
    FF, CR (9-13), FS, GS, RS, US (28-31), the blank (32), NEL (133) and the
    no-break space (160). *)
Definition py_isspace (c : ascii) : bool :=
  let n := nat_of_ascii c in
  (((9 <=? n) && (n <=? 13)) || ((28 <=? n) && (n <=? 32))
   || (n =? 133) || (n =? 160))%nat.

Fixpoint lstrip (s : string) : string :=
  match s with
  | EmptyString => EmptyString
  | String c rest => if py_isspace c then lstrip rest else s
  end.

Fixpoint rstrip (s : string) : string :=
  match s with
  | EmptyString => EmptyString
  | String c rest =>
      match rstrip rest with
      | EmptyString => if py_isspace c then EmptyString else String c EmptyString
      | kept => String c kept
      end
  end.

(** [str.strip()] with no argument. *)
Definition strip (s : string) : string := rstrip (lstrip s).

(** [needle in hay] for strings. *)
Fixpoint contains (needle hay : string) : bool :=
  String.prefix needle hay
  || match hay with
     | EmptyString => false
     | String _ rest => contains needle rest
     end.

(** Truth value of an [Optional[str]] and of an [Optional[list]]. *)
Definition truthy_str (o : option string) : bool :=
  match o with
  | None | Some EmptyString => false
  | Some _ => true
  end.

Definition truthy_list {A : Type} (o : option (list A)) : bool :=
  match o with
  | None | Some [] => false
  | Some _ => true
  end.

(* ------------------------------------------------------------------ *)
(** ** Exceptions *)

(** [superset.daos.exceptions.DAOCreateFailedError]; [exception] is the
    attribute the commands log. *)
Record DAOCreateFailedError := { exception : string }.

(** The two command exceptions.  [message] is the positional argument of the
    constructor ([None] when the call passes none and the class default text
    applies); [cause] is [__cause__], set by [raise ... from ex];
    [exceptions] is the keyword argument of [TagInvalidError]. *)
#[warnings="-register-all"]
Inductive CommandException :=
| TagCreateFailedError (message : option string)
                       (cause : option DAOCreateFailedError)
| TagInvalidError (message : option string)
                  (exceptions : list CommandException).

Definition message_of (e : CommandException) : option string :=
  match e with
  | TagCreateFailedError m _ => m
  | TagInvalidError m _ => m
  end.

(** A failure mentions [text] when the message it was built with has it. *)
Definition mentions (text : string) (e : CommandException) : bool :=
  match message_of e with
  | Some m => contains text m
  | None => false
  end.

Inductive PyException :=
| CommandError (e : CommandException)
| DAOError (e : DAOCreateFailedError)
| OtherError (what : string).

Inductive Outcome (A : Type) :=
| Returned (a : A)
| Raised (e : PyException).
Arguments Returned {A} a.
Arguments Raised {A} e.

(* ------------------------------------------------------------------ *)
(** ** Collaborators *)

(** [superset.tags.commands.utils.to_object_type]: any resolver of tokens.
    Enum members are truthy, so [not object_type] holds exactly on [None]. *)
Class Resolver := { to_object_type : Token -> option ObjectTypes }.

Definition unresolved `{Resolver} (tok : Token) : bool :=
  match to_object_type tok with
  | None => true
  | Some _ => false
  end.

(** What the command did, in order. *)
Inductive Event (TagRef : Type) :=
| Call_create_custom_tagged_objects
    (object_type : ObjectTypes) (object_id : Z) (tag_names : list string)
| Call_get_by_name (name : string) (kind : TagTypes)
| Call_create_tag_relationship
    (objects_to_tag : list (Token * Z)) (tag : TagRef) (bulk_create : bool)
| Set_description (tag : TagRef) (description : string)
| Call_commit
| Log_exception (text : string).
Arguments Call_create_custom_tagged_objects {TagRef}.
Arguments Call_get_by_name {TagRef}.
Arguments Call_create_tag_relationship {TagRef}.
Arguments Set_description {TagRef}.
Arguments Call_commit {TagRef}.
Arguments Log_exception {TagRef}.

Definition is_get_by_name {TagRef} (ev : Event TagRef) : bool :=
  match ev with
  | Call_get_by_name _ _ => true
  | _ => false
  end.

(** The description assignment and the commit that follows it. *)
Definition is_description_update {TagRef} (ev : Event TagRef) : bool :=
  match ev with
  | Set_description _ _ | Call_commit => true
  | _ => false
  end.

(** [TagDAO] and [db.session] over a store: each operation may return, raise
    [DAOCreateFailedError] or raise anything else, and leaves a store behind.
    [set_description] is the attribute assignment [tag.description = ...],
    which does not raise. *)
Class TagDAO (Store TagRef : Type) := {
  create_custom_tagged_objects :
    ObjectTypes -> Z -> list string -> Store -> Outcome unit * Store;
  get_by_name : string -> TagTypes -> Store -> Outcome TagRef * Store;
  create_tag_relationship :
    list (Token * Z) -> TagRef -> bool -> Store -> Outcome unit * Store;
  set_description : TagRef -> string -> Store -> Store;
  commit : Store -> Outcome unit * Store
}.

(* ------------------------------------------------------------------ *)
(** ** The state and exception monad of a command *)

Record World (Store TagRef : Type) := {
  store : Store;
  trace : list (Event TagRef)
}.
Arguments store {Store TagRef} w.
Arguments trace {Store TagRef} w.
Arguments Build_World {Store TagRef} store trace.

Section Monad.
Context {Store TagRef : Type}.

Definition M (A : Type) : Type :=
  World Store TagRef -> Outcome A * World Store TagRef.

Definition ret {A} (a : A) : M A := fun w => (Returned a, w).

Definition raise {A} (e : PyException) : M A := fun w => (Raised e, w).

Definition bind {A B} (m : M A) (k : A -> M B) : M B :=
  fun w =>
    match m w with
    | (Returned a, w') => k a w'
    | (Raised e, w') => (Raised e, w')
    end.

(** [try: body / except DAOCreateFailedError as ex: handler ex]. *)
Definition try_except_DAOCreateFailedError {A}
    (body : M A) (handler : DAOCreateFailedError -> M A) : M A :=
  fun w =>
    match body w with
    | (Raised (DAOError ex), w') => handler ex w'
    | other => other
    end.

(** Record an event, then let the store operation run. *)
Definition call {A} (ev : Event TagRef)
    (op : Store -> Outcome A * Store) : M A :=
  fun w =>
    let (r, s) := op (store w) in
    (r, {| store := s; trace := trace w ++ [ev] |}).

Definition emit (ev : Event TagRef) : M unit :=
  fun w => (Returned tt, {| store := store w; trace := trace w ++ [ev] |}).

(** An attribute assignment on a persisted object. *)
Definition assign (ev : Event TagRef) (f : Store -> Store) : M unit :=
  fun w => (Returned tt, {| store := f (store w); trace := trace w ++ [ev] |}).
End Monad.
Arguments M : clear implicits.

Declare Scope cmd_scope.
Delimit Scope cmd_scope with cmd.
Notation "x <- m ;; k" := (bind m (fun x => k))
  (at level 61, m at next level, right associativity) : cmd_scope.
Notation "m ;; k" := (bind m (fun _ => k))
  (at level 61, right associativity) : cmd_scope.
Open Scope cmd_scope.

(* ------------------------------------------------------------------ *)
(** ** CreateCustomTagCommand *)

Module CreateCustomTagCommand.

(** The attributes [__init__] stores. *)
Record t := {
  _object_type : Token;
  _object_id : Z;
  _tags : list string
}.

Section Methods.
Context {R : Resolver} {Store TagRef : Type} {D : TagDAO Store TagRef}.

(** The list [exceptions] that [validate] builds. *)
Definition validate_exceptions (self : t) : list CommandException :=
  (if _object_id self =? 0
   then [TagCreateFailedError None None] else [])
  ++ (if unresolved (_object_type self)
      then [TagCreateFailedError
              (Some ("invalid object type " ++ str_Token (_object_type self)))
              None]
      else []).

Definition validate (self : t) : M Store TagRef unit :=
  match validate_exceptions self with
  | [] => ret tt
  | exceptions => raise (CommandError (TagInvalidError None exceptions))
  end.

(** The body of the [try] block. *)
Definition run_body (self : t) : M Store TagRef unit :=
  match to_object_type (_object_type self) with
  | None =>
      raise (CommandError
               (TagCreateFailedError
                  (Some ("invalid object type "
                         ++ str_Token (_object_type self)))
                  None))
  | Some object_type =>
      call (Call_create_custom_tagged_objects
              object_type (_object_id self) (_tags self))
           (create_custom_tagged_objects
              object_type (_object_id self) (_tags self))
  end.

Definition run (self : t) : M Store TagRef unit :=
  validate self ;;
  try_except_DAOCreateFailedError
    (run_body self)
    (fun ex =>
       emit (Log_exception (exception ex)) ;;
       raise (CommandError (TagCreateFailedError None (Some ex)))).
End Methods.

End CreateCustomTagCommand.

(* ------------------------------------------------------------------ *)
(** ** CreateCustomTagWithRelationshipsCommand *)

Module CreateCustomTagWithRelationshipsCommand.

(** The [data] dictionary: ["name"] is read with [data["name"]], the other
    two keys with [data.get], so they may be missing. *)
Record data := {
  name : string;
  objects_to_tag : option (list (Token * Z));
  description : option string
}.

Record t := {
  _tag : string;
  _objects_to_tag : option (list (Token * Z));
  _description : option string;
  _bulk_create : bool
}.

Definition init (d : data) (bulk_create : bool) : t :=
  {| _tag := name d;
     _objects_to_tag := objects_to_tag d;
     _description := description d;
     _bulk_create := bulk_create |}.

(** The list a truthy [self._objects_to_tag] iterates over. *)
Definition batch (self : t) : list (Token * Z) :=
  match _objects_to_tag self with
  | Some objs => objs
  | None => []
  end.

Section Methods.
Context {R : Resolver} {Store TagRef : Type} {D : TagDAO Store TagRef}.

(** [any(obj_id == 0 for obj_type, obj_id in ...)]. *)
Definition any_zero_id (objs : list (Token * Z)) : bool :=
  existsb (fun '(_, obj_id) => obj_id =? 0) objs.

(** The loop over the pairs: one entry per pair whose type does not
    resolve; the message formats [object_type], the resolver's result. *)
Definition type_exceptions (objs : list (Token * Z))
  : list CommandException :=
  flat_map
    (fun '(obj_type, _) =>
       let object_type := to_object_type obj_type in
       match object_type with
       | None =>
           [TagInvalidError
              (Some ("invalid object type " ++ str_optional object_type))
              []]
       | Some _ => []
       end)
    objs.

Definition validate_exceptions (self : t) : list CommandException :=
  if truthy_list (_objects_to_tag self)
  then (if any_zero_id (batch self)
        then [TagInvalidError None []] else [])
       ++ type_exceptions (batch self)
  else [].

Definition validate (self : t) : M Store TagRef unit :=
  match validate_exceptions self with
  | [] => ret tt
  | exceptions => raise (CommandError (TagInvalidError None exceptions))
  end.

(** The body of the [try] block. *)
Definition run_body (self : t) : M Store TagRef unit :=
  tag <- call (Call_get_by_name (strip (_tag self)) custom)
              (get_by_name (strip (_tag self)) custom) ;;
  (if truthy_list (_objects_to_tag self)
   then call (Call_create_tag_relationship
                (batch self) tag (_bulk_create self))
             (create_tag_relationship
                (batch self) tag (_bulk_create self))
   else ret tt) ;;
  (if truthy_str (_description self)
   then match _description self with
        | Some d =>
            assign (Set_description tag d) (set_description tag d) ;;
            call Call_commit commit
        | None => ret tt
        end
   else ret tt).

Definition run (self : t) : M Store TagRef unit :=
  validate self ;;
  try_except_DAOCreateFailedError
    (run_body self)
    (fun ex =>
       emit (Log_exception (exception ex)) ;;
       raise (CommandError (TagCreateFailedError None (Some ex)))).
End Methods.

End CreateCustomTagWithRelationshipsCommand.

(* ------------------------------------------------------------------ *)
(** ** Either command, through the [BaseCommand] interface *)

Inductive Command :=
| Create (c : CreateCustomTagCommand.t)
| CreateWithRelationships (c : CreateCustomTagWithRelationshipsCommand.t).

Section BaseCommand.
Context {R : Resolver} {Store TagRef : Type} {D : TagDAO Store TagRef}.

Definition Command_validate_exceptions (cmd : Command)
  : list CommandException :=
  match cmd with
  | Create c => CreateCustomTagCommand.validate_exceptions c
  | CreateWithRelationships c =>
      CreateCustomTagWithRelationshipsCommand.validate_exceptions c
  end.

Definition Command_run_body (cmd : Command) : M Store TagRef unit :=
  match cmd with
  | Create c => CreateCustomTagCommand.run_body c
  | CreateWithRelationships c =>
      CreateCustomTagWithRelationshipsCommand.run_body c
  end.

Definition Command_run (cmd : Command) : M Store TagRef unit :=
  match cmd with
  | Create c => CreateCustomTagCommand.run c
  | CreateWithRelationships c =>
      CreateCustomTagWithRelationshipsCommand.run c
  end.
End BaseCommand.

(* ------------------------------------------------------------------ *)
(** ** A resolver and a store to run the commands on *)

Module SpecModel.

Definition ObjectTypes_members : list ObjectTypes :=
  [chart; dashboard; query; saved_query].

(** Modelled from the spec: the numeric codes of the enumeration are in the
    missing superset/tags/models.py and the spec gives none; members are
    numbered from 1 in the order the spec lists them. *)
Definition ObjectTypes_value (t : ObjectTypes) : Z :=
  match t with
  | chart => 1
  | dashboard => 2
  | query => 3
  | saved_query => 4
  end.

(** Modelled from the spec: [to_object_type] is in the missing
    superset/tags/commands/utils.py.  The spec's resolver takes a string, a
    numeric code or an already-typed value and returns the member it
    matches, or [None]; it never raises. *)
Definition resolve (tok : Token) : option ObjectTypes :=
  match tok with
  | TokEnum t => Some t
  | TokStr s =>
      find (fun m => String.eqb s (ObjectTypes_name m)) ObjectTypes_members
  | TokInt n =>
      find (fun m => n =? ObjectTypes_value m) ObjectTypes_members
  end.

Definition resolver : Resolver := {| to_object_type := resolve |}.

(** Modelled from the spec: superset/tags/models.py and superset/daos/tag.py
    are missing, so the store below follows the spec's data model.  A Tag has
    a name, unique within its kind, and an optional description. *)
Record Tag := {
  tag_name : string;
  tag_kind : TagTypes;
  tag_description : option string
}.

(** Modelled from the spec: an association between a Tag (its row number)
    and an object reference. *)
Record TaggedObject := {
  tagged_tag : nat;
  tagged_object_type : ObjectTypes;
  tagged_object_id : Z
}.

Record Db := {
  tags : list Tag;
  tagged_objects : list TaggedObject
}.

(** Modelled from the spec: the gateway has a commit operation for pending
    changes, so a session has a pending view and a committed one. *)
Record Session := {
  pending : Db;
  durable : Db
}.

Definition TagTypes_eqb (a b : TagTypes) : bool :=
  match a, b with
  | custom, custom | derived, derived => true
  | _, _ => false
  end.

Definition ObjectTypes_eqb (a b : ObjectTypes) : bool :=
  ObjectTypes_value a =? ObjectTypes_value b.

Definition named (name : string) (kind : TagTypes) (t : Tag) : bool :=
  String.eqb (tag_name t) name && TagTypes_eqb (tag_kind t) kind.

Fixpoint find_index {A} (p : A -> bool) (l : list A) : option nat :=
  match l with
  | [] => None
  | x :: rest =>
      if p x then Some O
      else match find_index p rest with
           | Some i => Some (S i)
           | None => None
           end
  end.

Fixpoint set_nth {A} (i : nat) (f : A -> A) (l : list A) : list A :=
  match l, i with
  | [], _ => []
  | x :: rest, O => f x :: rest
  | x :: rest, S j => x :: set_nth j f rest
  end.

(** Modelled from the spec: [TagDAO.get_by_name] (superset/daos/tag.py is
    missing) is the gateway's get-or-create-tag-by-name: the Tag of that
    name and kind, created without description when there is none. *)
Definition lookup_or_create (name : string) (kind : TagTypes) (db : Db)
  : nat * Db :=
  match find_index (named name kind) (tags db) with
  | Some i => (i, db)
  | None =>
      (List.length (tags db),
       {| tags := (tags db
                   ++ [{| tag_name := name; tag_kind := kind;
                          tag_description := None |}])%list;
          tagged_objects := tagged_objects db |})
  end.

Definition associated (tag : nat) (ot : ObjectTypes) (id : Z)
    (a : TaggedObject) : bool :=
  Nat.eqb (tagged_tag a) tag
  && ObjectTypes_eqb (tagged_object_type a) ot
  && (tagged_object_id a =? id).

(** Modelled from the spec: the persistence layer associates idempotently;
    an association that exists is not added again. *)
Definition associate (tag : nat) (ot : ObjectTypes) (id : Z) (db : Db)
  : Db :=
  if existsb (associated tag ot id) (tagged_objects db) then db
  else {| tags := tags db;
          tagged_objects :=
            (tagged_objects db
             ++ [{| tagged_tag := tag; tagged_object_type := ot;
                    tagged_object_id := id |}])%list |}.

(** Modelled from the spec: [TagDAO.create_tag_relationship] associates the
    Tag with every reference; the bulk flag does not change the final
    state. *)
Definition relate (objs : list (Token * Z)) (tag : nat) (db : Db) : Db :=
  fold_left
    (fun acc '(tok, id) =>
       match resolve tok with
       | Some ot => associate tag ot id acc
       | None => acc
       end)
    objs db.

(** Modelled from the spec: [TagDAO.create_custom_tagged_objects] creates
    or reuses each named custom Tag and associates it with the object. *)
Definition tag_object (ot : ObjectTypes) (id : Z) (tag_names : list string)
    (db : Db) : Db :=
  fold_left
    (fun acc nm =>
       let (i, acc') := lookup_or_create nm custom acc in
       associate i ot id acc')
    tag_names db.

(** [tag.description = d] on the row the command holds. *)
Definition describe (tag : nat) (d : string) (db : Db) : Db :=
  {| tags := set_nth tag
               (fun t => {| tag_name := tag_name t; tag_kind := tag_kind t;
                            tag_description := Some d |})
               (tags db);
     tagged_objects := tagged_objects db |}.

Definition on_pending (f : Db -> Db) (s : Session) : Session :=
  {| pending := f (pending s); durable := durable s |}.

(** Modelled from the spec: the gateway when nothing goes wrong; [commit]
    makes the pending view the committed one. *)
Definition dao : TagDAO Session nat := {|
  create_custom_tagged_objects ot id tag_names s :=
    (Returned tt, on_pending (tag_object ot id tag_names) s);
  get_by_name nm kind s :=
    let (i, db) := lookup_or_create nm kind (pending s) in
    (Returned i, {| pending := db; durable := durable s |});
  create_tag_relationship objs tag _ s :=
    (Returned tt, on_pending (relate objs tag) s);
  set_description tag d s := on_pending (describe tag d) s;
  commit s := (Returned tt, {| pending := pending s; durable := pending s |})
|}.

(** Modelled from the spec: the same gateway over a store that rejects every
    write with the gateway's creation failure. *)
Definition broken (why : string) : TagDAO Session nat := {|
  create_custom_tagged_objects _ _ _ s :=
    (Raised (DAOError {| exception := why |}), s);
  get_by_name := get_by_name (TagDAO := dao);
  create_tag_relationship _ _ _ s :=
    (Raised (DAOError {| exception := why |}), s);
  set_description := set_description (TagDAO := dao);
  commit s := (Raised (DAOError {| exception := why |}), s)
|}.

Definition empty_db : Db := {| tags := []; tagged_objects := [] |}.

Definition empty_world : World Session nat :=
  {| store := {| pending := empty_db; durable := empty_db |};
     trace := [] |}.

(** How many Tags carry a name within a kind. *)
Definition count_named (name : string) (kind : TagTypes) (db : Db) : nat :=
  List.length (filter (named name kind) (tags db)).

(** The description of the Tag a lookup by name finds. *)
Definition description_of (name : string) (kind : TagTypes) (db : Db)
  : option (option string) :=
  option_map tag_description (find (named name kind) (tags db)).

End SpecModel.

(* ------------------------------------------------------------------ *)
(** ** Measures of a batch and sample requests *)

(** K: how many references of a batch carry the unset id 0. *)
Definition zero_ids (objs : list (Token * Z)) : nat :=
  List.length (filter (fun '(_, obj_id) => obj_id =? 0) objs).

(** How many references of a batch have a type that does not resolve. *)
Definition unresolved_types {R : Resolver} (objs : list (Token * Z)) : nat :=
  List.length (filter (fun '(obj_type, _) => unresolved obj_type) objs).

(** The command a request for tag [nm] with the pairs [objs] builds. *)
Definition bulk_request (nm : string) (objs : option (list (Token * Z)))
    (desc : option string) (bulk : bool)
  : CreateCustomTagWithRelationshipsCommand.t :=
  CreateCustomTagWithRelationshipsCommand.init
    {| CreateCustomTagWithRelationshipsCommand.name := nm;
       CreateCustomTagWithRelationshipsCommand.objects_to_tag := objs;
       CreateCustomTagWithRelationshipsCommand.description := desc |}
    bulk.

(** What [run] raises for an exception that left the [try] block. *)
Definition reraised (e : PyException) : PyException :=
  match e with
  | DAOError ex => CommandError (TagCreateFailedError None (Some ex))
  | other => other
  end.

(** What [run] logs for it. *)
Definition logged {TagRef : Type} (e : PyException) : list (Event TagRef) :=
  match e with
  | DAOError ex => [Log_exception (exception ex)]
  | _ => []
  end.

Section GatewayFailure.
Context {R : Resolver} {Store TagRef : Type} {D : TagDAO Store TagRef}.

(** [gateway_failure s0 ex cmd events s]: in the run of [cmd] on the store
    [s0], the gateway operations the command calls return one after the
    other until one of them raises [DAOCreateFailedError] [ex], leaving the
    store [s]; [events] are the steps up to and including that call.  One
    case per gateway operation in the two [try] blocks. *)
Inductive gateway_failure (s0 : Store) (ex : DAOCreateFailedError)
  : Command -> list (Event TagRef) -> Store -> Prop :=
| create_custom_tagged_objects_fails c object_type s :
    to_object_type (CreateCustomTagCommand._object_type c)
    = Some object_type ->
    create_custom_tagged_objects object_type
      (CreateCustomTagCommand._object_id c)
      (CreateCustomTagCommand._tags c) s0
    = (Raised (DAOError ex), s) ->
    gateway_failure s0 ex (Create c)
      [Call_create_custom_tagged_objects object_type
         (CreateCustomTagCommand._object_id c)
         (CreateCustomTagCommand._tags c)]
      s
| get_by_name_fails c s :
    get_by_name (strip (CreateCustomTagWithRelationshipsCommand._tag c))
      custom s0
    = (Raised (DAOError ex), s) ->
    gateway_failure s0 ex (CreateWithRelationships c)
      [Call_get_by_name
         (strip (CreateCustomTagWithRelationshipsCommand._tag c)) custom]
      s
| create_tag_relationship_fails c tag s1 s :
    get_by_name (strip (CreateCustomTagWithRelationshipsCommand._tag c))
      custom s0
    = (Returned tag, s1) ->
    truthy_list (CreateCustomTagWithRelationshipsCommand._objects_to_tag c)
    = true ->
    create_tag_relationship
      (CreateCustomTagWithRelationshipsCommand.batch c) tag
      (CreateCustomTagWithRelationshipsCommand._bulk_create c) s1
    = (Raised (DAOError ex), s) ->
    gateway_failure s0 ex (CreateWithRelationships c)
      [Call_get_by_name
         (strip (CreateCustomTagWithRelationshipsCommand._tag c)) custom;
       Call_create_tag_relationship
         (CreateCustomTagWithRelationshipsCommand.batch c) tag
         (CreateCustomTagWithRelationshipsCommand._bulk_create c)]
      s
| commit_fails c tag s1 s2 d s :
    get_by_name (strip (CreateCustomTagWithRelationshipsCommand._tag c))
      custom s0
    = (Returned tag, s1) ->
    (if truthy_list
          (CreateCustomTagWithRelationshipsCommand._objects_to_tag c)
     then create_tag_relationship
            (CreateCustomTagWithRelationshipsCommand.batch c) tag
            (CreateCustomTagWithRelationshipsCommand._bulk_create c) s1
     else (Returned tt, s1))
    = (Returned tt, s2) ->
    CreateCustomTagWithRelationshipsCommand._description c = Some d ->
    d <> EmptyString ->
    commit (set_description tag d s2) = (Raised (DAOError ex), s) ->
    gateway_failure s0 ex (CreateWithRelationships c)
      (Call_get_by_name
         (strip (CreateCustomTagWithRelationshipsCommand._tag c)) custom
       :: (if truthy_list
                (CreateCustomTagWithRelationshipsCommand._objects_to_tag c)
           then [Call_create_tag_relationship
                   (CreateCustomTagWithRelationshipsCommand.batch c) tag
                   (CreateCustomTagWithRelationshipsCommand._bulk_create c)]
           else [])
       ++ [Set_description tag d; Call_commit])%list
      s.

End GatewayFailure.

(** A gateway that raises nothing but its own [DAOCreateFailedError]. *)
Definition dao_errors_only {Store TagRef : Type} (D : TagDAO Store TagRef)
  : Prop :=
  (forall ot id tag_names s e,
      fst (create_custom_tagged_objects ot id tag_names s) = Raised e ->
      exists ex, e = DAOError ex)
  /\ (forall nm kind s e,
         fst (get_by_name nm kind s) = Raised e -> exists ex, e = DAOError ex)
  /\ (forall objs tag bulk s e,
         fst (create_tag_relationship objs tag bulk s) = Raised e ->
         exists ex, e = DAOError ex)
  /\ (forall s e, fst (commit s) = Raised e -> exists ex, e = DAOError ex).

(** The gateway of [SpecModel.dao] with a session whose commit fails with an
    exception that is not [DAOCreateFailedError]. *)
Definition crashing_commit (what : string)
  : TagDAO SpecModel.Session nat := {|
  create_custom_tagged_objects :=
    create_custom_tagged_objects (TagDAO := SpecModel.dao);
  get_by_name := get_by_name (TagDAO := SpecModel.dao);
  create_tag_relationship :=
    create_tag_relationship (TagDAO := SpecModel.dao);
  set_description := set_description (TagDAO := SpecModel.dao);
  commit s := (Raised (OtherError what), s)
|}.

(** A gateway none of whose calls gets through. *)
Definition unreachable (why : string) : TagDAO SpecModel.Session nat := {|
  create_custom_tagged_objects _ _ _ s :=
    (Raised (DAOError {| exception := why |}), s);
  get_by_name _ _ s := (Raised (DAOError {| exception := why |}), s);
  create_tag_relationship _ _ _ s :=
    (Raised (DAOError {| exception := why |}), s);
  set_description := set_description (TagDAO := SpecModel.dao);
  commit s := (Raised (DAOError {| exception := why |}), s)
|}.

(** The outcome of [run] for the outcome of the last gateway call. *)
Definition run_outcome {A : Type} (r : Outcome A) : Outcome unit :=
  match r with
  | Returned _ => Returned tt
  | Raised e => Raised (reraised e)
  end.

(** The log entry, if any, for the outcome of the last gateway call. *)
Definition run_log {A TagRef : Type} (r : Outcome A) : list (Event TagRef) :=
  match r with
  | Returned _ => []
  | Raised e => logged e
  end.

(* ------------------------------------------------------------------ *)
(** ** Validation *)

Section Validation.
Import CreateCustomTagWithRelationshipsCommand.
Context {R : Resolver} {Store TagRef : Type}.

Lemma any_zero_id_zero_ids (objs : list (Token * Z)) :
  any_zero_id objs = negb (Nat.eqb (zero_ids objs) 0).
Proof.
  unfold any_zero_id, zero_ids.
  induction objs as [|[obj_type obj_id] rest IH]; simpl; [reflexivity|].
  destruct (obj_id =? 0); simpl; [reflexivity|exact IH].
Qed.

Lemma type_exceptions_length (objs : list (Token * Z)) :
  List.length (type_exceptions objs) = unresolved_types objs.
Proof.
  unfold type_exceptions, unresolved_types, unresolved.
  induction objs as [|[obj_type obj_id] rest IH]; simpl; [reflexivity|].
  destruct (to_object_type obj_type); simpl; [exact IH|].
  f_equal; exact IH.
Qed.

(** Every type failure of the batch command carries the same text: the word
    [None], whatever the token was. *)
Lemma type_exceptions_message (objs : list (Token * Z)) :
  Forall (fun e => e = TagInvalidError (Some "invalid object type None") [])
         (type_exceptions objs).
Proof.
  unfold type_exceptions.
  induction objs as [|[obj_type obj_id] rest IH]; simpl; [constructor|].
  destruct (to_object_type obj_type); simpl; [exact IH|].
  constructor; [reflexivity|exact IH].
Qed.

(** A batch whose types all resolve has no type failure. *)
Lemma type_exceptions_resolved (objs : list (Token * Z)) :
  unresolved_types objs = 0%nat -> type_exceptions objs = [].
Proof.
  rewrite <- type_exceptions_length.
  destruct (type_exceptions objs); [reflexivity|discriminate].
Qed.

(** C1 (as amended): a batch in which K >= 1 references have the unset id
    makes [validate] raise the aggregated [TagInvalidError] with exactly one
    failure for the unset ids, whatever K is: a [TagInvalidError] without
    message, first in the list, followed by one failure per reference whose
    type does not resolve.  Nothing else happens to the world. *)
Theorem validate_unset_ids_one_failure
    (nm : string) (objs : list (Token * Z)) (desc : option string)
    (bulk : bool) (w : World Store TagRef) :
  (0 < zero_ids objs)%nat ->
  validate (bulk_request nm (Some objs) desc bulk) w
  = (Raised (CommandError
               (TagInvalidError None
                  (TagInvalidError None [] :: type_exceptions objs))), w)
  /\ List.length (TagInvalidError None [] :: type_exceptions objs)
     = (1 + unresolved_types objs)%nat.
Proof.
  intros K. split.
  - unfold validate, validate_exceptions, bulk_request, init, batch; simpl.
    destruct objs as [|o rest]; [inversion K|].
    rewrite any_zero_id_zero_ids.
    destruct (zero_ids (o :: rest)) eqn:E; [inversion K|]. reflexivity.
  - simpl. now rewrite type_exceptions_length.
Qed.

End Validation.

(** C1, the claim as stated, fails: a batch of two references, both with id
    0 and both of a known type, raises with one failure, not two. *)
Lemma two_unset_ids_one_failure :
  let objs := [(TokStr "chart", 0); (TokStr "dashboard", 0)] in
  zero_ids objs = 2%nat
  /\ CreateCustomTagWithRelationshipsCommand.validate
       (R := SpecModel.resolver)
       (bulk_request "q1" (Some objs) None false) SpecModel.empty_world
     = (Raised (CommandError (TagInvalidError None [TagInvalidError None []])),
        SpecModel.empty_world)
  /\ List.length [TagInvalidError None []] <> zero_ids objs.
Proof.
  split; [reflexivity|]. split; [reflexivity|].
  vm_compute; discriminate.
Qed.

Lemma validate_unset_ids_one_failure_witness :
  let objs := [(TokStr "chart", 0); (TokStr "nope", 7); (TokInt 2, 0)] in
  (0 < zero_ids objs)%nat
  /\ CreateCustomTagWithRelationshipsCommand.validate
       (R := SpecModel.resolver)
       (bulk_request "q1" (Some objs) None false) SpecModel.empty_world
     = (Raised (CommandError
                  (TagInvalidError None
                     [TagInvalidError None [];
                      TagInvalidError (Some "invalid object type None") []])),
        SpecModel.empty_world).
Proof.
  split; [vm_compute; lia|].
  apply (validate_unset_ids_one_failure (R := SpecModel.resolver)
           "q1" [(TokStr "chart", 0); (TokStr "nope", 7); (TokInt 2, 0)]
           None false SpecModel.empty_world).
  vm_compute; lia.
Defined.

Section ValidationOfCreate.
Import CreateCustomTagCommand.
Context {R : Resolver} {Store TagRef : Type}.

Lemma prefix_refl (s : string) : String.prefix s s = true.
Proof.
  induction s as [|c s IH]; simpl; [reflexivity|].
  destruct (ascii_dec c c); [exact IH|congruence].
Qed.

Lemma contains_append (p s : string) : contains s (p ++ s) = true.
Proof.
  induction p as [|c p IH]; cbn [append contains].
  - destruct s; cbn [contains]; now rewrite prefix_refl.
  - rewrite IH. apply orb_true_r.
Qed.

(** X13: the single-object command names the token it could not resolve:
    among the failures [validate] collects there is one whose message
    contains the token as the f-string prints it. *)
Lemma create_validate_mentions_token (self : t) :
  unresolved (_object_type self) = true ->
  exists e, In e (validate_exceptions self)
            /\ mentions (str_Token (_object_type self)) e = true.
Proof.
  intros U.
  exists (TagCreateFailedError
            (Some ("invalid object type " ++ str_Token (_object_type self)))
            None).
  split.
  - unfold validate_exceptions. rewrite U.
    apply in_or_app. right. left. reflexivity.
  - unfold mentions, message_of. apply contains_append.
Qed.

(** A token that resolves adds no type failure: what is left is the id
    check alone. *)
Lemma create_validate_resolved (self : t) :
  unresolved (_object_type self) = false ->
  validate_exceptions self
  = if _object_id self =? 0 then [TagCreateFailedError None None] else [].
Proof.
  intros U. unfold validate_exceptions. rewrite U. apply app_nil_r.
Qed.

(** C5 (as amended): with the unset id 0, [validate] raises the aggregated
    [TagInvalidError] with at least one failure; the failure recorded for
    the id comes first and is a [TagCreateFailedError] built without a
    message, so it carries no reference to the id.  The only other failure
    there can be is the one for an unresolved type. *)
Theorem validate_unset_id_failure (self : t) (w : World Store TagRef) :
  _object_id self = 0 ->
  exists rest,
    validate self w
    = (Raised (CommandError
                 (TagInvalidError None
                    (TagCreateFailedError None None :: rest))), w)
    /\ message_of (TagCreateFailedError None None) = None
    /\ rest = if unresolved (_object_type self)
              then [TagCreateFailedError
                      (Some ("invalid object type "
                             ++ str_Token (_object_type self)))
                      None]
              else [].
Proof.
  intros Z0. eexists. split; [|split; reflexivity].
  unfold validate, validate_exceptions. rewrite Z0. reflexivity.
Qed.

End ValidationOfCreate.

(** C5, the claim as stated, fails: for chart 0 the one failure raised has
    no message and so nothing in it refers to the id. *)
Lemma unset_id_failure_has_no_reference :
  let self := {| CreateCustomTagCommand._object_type := TokStr "chart";
                 CreateCustomTagCommand._object_id := 0;
                 CreateCustomTagCommand._tags := ["a"] |} in
  CreateCustomTagCommand.validate (R := SpecModel.resolver)
    self SpecModel.empty_world
  = (Raised (CommandError
               (TagInvalidError None [TagCreateFailedError None None])),
     SpecModel.empty_world)
  /\ existsb (mentions (str_int (CreateCustomTagCommand._object_id self)))
             [TagCreateFailedError None None] = false.
Proof.
  split; reflexivity.
Qed.

Lemma validate_unset_id_failure_witness :
  let self := {| CreateCustomTagCommand._object_type := TokStr "sheet";
                 CreateCustomTagCommand._object_id := 0;
                 CreateCustomTagCommand._tags := ["a"; "b"] |} in
  CreateCustomTagCommand._object_id self = 0
  /\ exists rest,
      CreateCustomTagCommand.validate (R := SpecModel.resolver)
        self SpecModel.empty_world
      = (Raised (CommandError
                   (TagInvalidError None
                      (TagCreateFailedError None None :: rest))),
         SpecModel.empty_world).
Proof.
  split; [reflexivity|].
  destruct (validate_unset_id_failure (R := SpecModel.resolver)
              {| CreateCustomTagCommand._object_type := TokStr "sheet";
                 CreateCustomTagCommand._object_id := 0;
                 CreateCustomTagCommand._tags := ["a"; "b"] |}
              SpecModel.empty_world) as [rest [Hrun _]]; [reflexivity|].
  exists rest. exact Hrun.
Defined.

(** C4 at the failing input: for the unknown token "foo" the single-object
    command reports "invalid object type foo", while the batch command
    reports "invalid object type None": its message is built from the
    resolver's result instead of the token, and does not mention "foo". *)
Lemma unknown_type_message_loses_token :
  let tok := TokStr "foo" in
  CreateCustomTagCommand.validate_exceptions (R := SpecModel.resolver)
    {| CreateCustomTagCommand._object_type := tok;
       CreateCustomTagCommand._object_id := 1;
       CreateCustomTagCommand._tags := ["a"] |}
  = [TagCreateFailedError (Some "invalid object type foo") None]
  /\ CreateCustomTagWithRelationshipsCommand.validate
       (R := SpecModel.resolver)
       (bulk_request "q1" (Some [(tok, 1)]) None false)
       SpecModel.empty_world
     = (Raised (CommandError
                  (TagInvalidError None
                     [TagInvalidError (Some "invalid object type None") []])),
        SpecModel.empty_world)
  /\ existsb (mentions (str_Token tok))
             [TagInvalidError (Some "invalid object type None") []] = false.
Proof.
  split; [reflexivity|]. split; reflexivity.
Qed.

(* ------------------------------------------------------------------ *)
(** ** Validation comes before persistence *)

Section RunOrder.
Context {R : Resolver} {Store TagRef : Type} {D : TagDAO Store TagRef}.

(** C3: when validation finds any failure, [run] of either command raises
    the aggregated [TagInvalidError] with the whole list of failures and
    leaves the world as it was: no store operation ran and no event was
    recorded. *)
Theorem run_invalid_no_persistence (cmd : Command) (w : World Store TagRef) :
  Command_validate_exceptions cmd <> [] ->
  Command_run cmd w
  = (Raised (CommandError
               (TagInvalidError None (Command_validate_exceptions cmd))), w).
Proof.
  intros Bad. destruct cmd as [c|c]; simpl in *.
  - unfold CreateCustomTagCommand.run, bind, CreateCustomTagCommand.validate.
    destruct (CreateCustomTagCommand.validate_exceptions c);
      [congruence|reflexivity].
  - unfold CreateCustomTagWithRelationshipsCommand.run, bind,
      CreateCustomTagWithRelationshipsCommand.validate.
    destruct (CreateCustomTagWithRelationshipsCommand.validate_exceptions c);
      [congruence|reflexivity].
Qed.

End RunOrder.

Lemma run_invalid_no_persistence_witness :
  let cmd := CreateWithRelationships
               (bulk_request "q1" (Some [(TokStr "dashboard", 0)])
                  (Some "desc") false) in
  Command_validate_exceptions (R := SpecModel.resolver) cmd <> []
  /\ Command_run (R := SpecModel.resolver) (D := SpecModel.dao)
       cmd SpecModel.empty_world
     = (Raised (CommandError (TagInvalidError None [TagInvalidError None []])),
        SpecModel.empty_world).
Proof.
  split; [vm_compute; discriminate|].
  apply (run_invalid_no_persistence (R := SpecModel.resolver)
           (D := SpecModel.dao)
           (CreateWithRelationships
              (bulk_request "q1" (Some [(TokStr "dashboard", 0)])
                 (Some "desc") false))
           SpecModel.empty_world).
  vm_compute; discriminate.
Defined.

(* ------------------------------------------------------------------ *)
(** ** Persistence failures *)

Ltac unfold_run :=
  unfold Command_run, Command_run_body,
    CreateCustomTagCommand.run, CreateCustomTagCommand.validate,
    CreateCustomTagCommand.run_body,
    CreateCustomTagWithRelationshipsCommand.run,
    CreateCustomTagWithRelationshipsCommand.validate,
    CreateCustomTagWithRelationshipsCommand.run_body,
    try_except_DAOCreateFailedError, bind, call, assign, emit, raise, ret.

Section Failures.
Context {R : Resolver} {Store TagRef : Type} {D : TagDAO Store TagRef}.

(** Once validation has passed, [run] is the guarded [try] block. *)
Lemma run_valid (cmd : Command) (w : World Store TagRef) :
  Command_validate_exceptions cmd = [] ->
  Command_run cmd w
  = try_except_DAOCreateFailedError
      (Command_run_body cmd)
      (fun ex =>
         emit (Log_exception (exception ex)) ;;
         raise (CommandError (TagCreateFailedError None (Some ex)))) w.
Proof.
  intros Ok. destruct cmd as [c|c]; simpl in *.
  - unfold CreateCustomTagCommand.run, CreateCustomTagCommand.validate.
    rewrite Ok. reflexivity.
  - unfold CreateCustomTagWithRelationshipsCommand.run,
      CreateCustomTagWithRelationshipsCommand.validate.
    rewrite Ok. reflexivity.
Qed.

(** The [try] block of the single-object command ends with the gateway's
    error when [create_custom_tagged_objects] raises it. *)
Lemma create_body_raises (c : CreateCustomTagCommand.t)
    (w : World Store TagRef) object_type ex s :
  to_object_type (CreateCustomTagCommand._object_type c) = Some object_type ->
  create_custom_tagged_objects object_type
    (CreateCustomTagCommand._object_id c) (CreateCustomTagCommand._tags c)
    (store w) = (Raised (DAOError ex), s) ->
  exists w', CreateCustomTagCommand.run_body c w = (Raised (DAOError ex), w').
Proof.
  intros T F. unfold CreateCustomTagCommand.run_body, call.
  rewrite T, F. eexists. reflexivity.
Qed.

(** Conversely it raises [DAOCreateFailedError] only when that call did. *)
Lemma create_body_raises_inv (c : CreateCustomTagCommand.t)
    (w w' : World Store TagRef) ex :
  CreateCustomTagCommand.run_body c w = (Raised (DAOError ex), w') ->
  exists object_type s,
    to_object_type (CreateCustomTagCommand._object_type c) = Some object_type
    /\ create_custom_tagged_objects object_type
         (CreateCustomTagCommand._object_id c)
         (CreateCustomTagCommand._tags c) (store w)
       = (Raised (DAOError ex), s).
Proof.
  unfold CreateCustomTagCommand.run_body, call, raise.
  destruct (to_object_type (CreateCustomTagCommand._object_type c))
    as [object_type|]; [|discriminate].
  destruct (create_custom_tagged_objects object_type
              (CreateCustomTagCommand._object_id c)
              (CreateCustomTagCommand._tags c) (store w)) as [r s] eqn:F.
  intros H; inversion H; subst. eauto.
Qed.

(** The [try] block of the batch command ends with the gateway's error when
    the lookup, the relationship creation or the commit raises it. *)
Lemma bulk_body_raises_lookup
    (c : CreateCustomTagWithRelationshipsCommand.t)
    (w : World Store TagRef) ex s :
  get_by_name (strip (CreateCustomTagWithRelationshipsCommand._tag c)) custom
    (store w) = (Raised (DAOError ex), s) ->
  exists w',
    CreateCustomTagWithRelationshipsCommand.run_body c w
    = (Raised (DAOError ex), w').
Proof.
  intros F. unfold_run. rewrite F. eexists. reflexivity.
Qed.

Lemma bulk_body_raises_relationship
    (c : CreateCustomTagWithRelationshipsCommand.t)
    (w : World Store TagRef) tag s1 ex s2 :
  truthy_list (CreateCustomTagWithRelationshipsCommand._objects_to_tag c)
  = true ->
  get_by_name (strip (CreateCustomTagWithRelationshipsCommand._tag c)) custom
    (store w) = (Returned tag, s1) ->
  create_tag_relationship
    (CreateCustomTagWithRelationshipsCommand.batch c) tag
    (CreateCustomTagWithRelationshipsCommand._bulk_create c) s1
  = (Raised (DAOError ex), s2) ->
  exists w',
    CreateCustomTagWithRelationshipsCommand.run_body c w
    = (Raised (DAOError ex), w').
Proof.
  intros T G F. unfold_run. rewrite G, T. simpl. rewrite F.
  eexists. reflexivity.
Qed.

Lemma bulk_body_raises_commit
    (c : CreateCustomTagWithRelationshipsCommand.t)
    (w : World Store TagRef) tag s1 s2 d ex s3 :
  CreateCustomTagWithRelationshipsCommand._description c = Some d ->
  d <> "" ->
  get_by_name (strip (CreateCustomTagWithRelationshipsCommand._tag c)) custom
    (store w) = (Returned tag, s1) ->
  (if truthy_list (CreateCustomTagWithRelationshipsCommand._objects_to_tag c)
   then create_tag_relationship
          (CreateCustomTagWithRelationshipsCommand.batch c) tag
          (CreateCustomTagWithRelationshipsCommand._bulk_create c) s1
   else (Returned tt, s1)) = (Returned tt, s2) ->
  commit (set_description tag d s2) = (Raised (DAOError ex), s3) ->
  exists w',
    CreateCustomTagWithRelationshipsCommand.run_body c w
    = (Raised (DAOError ex), w').
Proof.
  intros Hd Ne G Rel F. unfold_run. rewrite G, Hd.
  destruct (truthy_list
              (CreateCustomTagWithRelationshipsCommand._objects_to_tag c));
    simpl; [rewrite Rel|inversion Rel; subst];
    (destruct d as [|a d]; [congruence|]); simpl; rewrite F;
    eexists; reflexivity.
Qed.

(** Conversely the [try] block of the batch command raises
    [DAOCreateFailedError] only when one of those three calls did. *)
Lemma bulk_body_raises_inv
    (c : CreateCustomTagWithRelationshipsCommand.t)
    (w w' : World Store TagRef) ex :
  CreateCustomTagWithRelationshipsCommand.run_body c w
  = (Raised (DAOError ex), w') ->
  (exists s,
      get_by_name (strip (CreateCustomTagWithRelationshipsCommand._tag c))
        custom (store w) = (Raised (DAOError ex), s))
  \/ (exists tag s1 s2,
         create_tag_relationship
           (CreateCustomTagWithRelationshipsCommand.batch c) tag
           (CreateCustomTagWithRelationshipsCommand._bulk_create c) s1
         = (Raised (DAOError ex), s2))
  \/ (exists s2 s3, commit s2 = (Raised (DAOError ex), s3)).
Proof.
  unfold_run.
  destruct (get_by_name (strip (CreateCustomTagWithRelationshipsCommand._tag c))
              custom (store w)) as [[tag|e] s1] eqn:G; simpl.
  - destruct (truthy_list
                (CreateCustomTagWithRelationshipsCommand._objects_to_tag c));
      simpl.
    + destruct (create_tag_relationship
                  (CreateCustomTagWithRelationshipsCommand.batch c) tag
                  (CreateCustomTagWithRelationshipsCommand._bulk_create c) s1)
        as [[[]|e] s2] eqn:Rel; simpl.
      * destruct (truthy_str
                    (CreateCustomTagWithRelationshipsCommand._description c));
          simpl; [|discriminate].
        destruct (CreateCustomTagWithRelationshipsCommand._description c)
          as [d|]; simpl; [|discriminate].
        destruct (commit (set_description tag d s2)) as [r s3] eqn:C.
        intros H; inversion H; subst. right; right; eauto.
      * intros H; inversion H; subst. right; left; eauto.
    + destruct (truthy_str
                  (CreateCustomTagWithRelationshipsCommand._description c));
        simpl; [|discriminate].
      destruct (CreateCustomTagWithRelationshipsCommand._description c)
        as [d|]; simpl; [|discriminate].
      destruct (commit (set_description tag d s1)) as [r s3] eqn:C.
      intros H; inversion H; subst. right; right; eauto.
  - intros H; inversion H; subst. left; eauto.
Qed.

End Failures.

(* ------------------------------------------------------------------ *)
(** ** The steps of CreateCustomTagWithRelationshipsCommand.run *)

Section BulkRun.
Import CreateCustomTagWithRelationshipsCommand.
Context {R : Resolver} {Store TagRef : Type} {D : TagDAO Store TagRef}.

(** C2: when the relationship creation fails (with any exception), [run]
    ends with an error in the store that the failed call left: the events of
    the run are the lookup, the relationship call and at most a log entry;
    the description is not assigned and no commit is issued, whatever
    description the request carried. *)
Theorem relationship_failure_skips_description
    (self : t) (w : World Store TagRef) (tag : TagRef) (s1 s2 : Store)
    (e : PyException) :
  validate_exceptions self = [] ->
  truthy_list (_objects_to_tag self) = true ->
  get_by_name (strip (_tag self)) custom (store w) = (Returned tag, s1) ->
  create_tag_relationship (batch self) tag (_bulk_create self) s1
  = (Raised e, s2) ->
  let events :=
    ([Call_get_by_name (strip (_tag self)) custom;
      Call_create_tag_relationship (batch self) tag (_bulk_create self)]
     ++ logged e)%list in
  run self w = (Raised (reraised e),
                {| store := s2; trace := trace w ++ events |})
  /\ existsb is_description_update events = false.
Proof.
  intros Ok T G F events. subst events. split.
  - unfold_run. rewrite Ok, G, T. simpl. rewrite F.
    destruct e as [c|ex|what]; simpl; rewrite <- ?app_assoc; reflexivity.
  - destruct e; reflexivity.
Qed.

(** C6: a request with an empty batch and a non-empty description passes
    validation; provided the lookup and the commit succeed, [run] returns
    after exactly three steps: the lookup-or-create of the Tag, the
    assignment of the description to that Tag, and the commit; no
    relationship call is made. *)
Theorem description_only_request
    (nm d : string) (objs : option (list (Token * Z))) (bulk : bool)
    (w : World Store TagRef) (tag : TagRef) (s1 s2 : Store) :
  objs = Some [] \/ objs = None ->
  d <> "" ->
  get_by_name (strip nm) custom (store w) = (Returned tag, s1) ->
  commit (set_description tag d s1) = (Returned tt, s2) ->
  validate_exceptions (bulk_request nm objs (Some d) bulk) = []
  /\ run (bulk_request nm objs (Some d) bulk) w
     = (Returned tt,
        {| store := s2;
           trace := trace w ++ [Call_get_by_name (strip nm) custom;
                                Set_description tag d;
                                Call_commit] |}).
Proof.
  intros E Ne G C.
  assert (T : truthy_list objs = false) by (destruct E; subst; reflexivity).
  split.
  - unfold validate_exceptions, bulk_request, init; simpl. now rewrite T.
  - unfold_run. unfold validate_exceptions, bulk_request, init; simpl.
    rewrite T, G. simpl.
    destruct d as [|a d]; [congruence|]. simpl. rewrite C.
    rewrite <- !app_assoc. reflexivity.
Qed.

(** C9: when validation has passed, [run] starts with one [get_by_name]
    call on the gateway, with the stripped tag name and kind [custom], made
    on the store as it stands.  If the call raises, the run ends there.  If
    it returns a Tag, the rest of the run goes on from the store the call
    left and works on that Tag: the relationship call, if any, takes it, the
    description is assigned to it, and the commit follows; these come after
    the lookup and none of them is another lookup. *)
Theorem tag_resolved_once_first (self : t) (w : World Store TagRef) :
  validate_exceptions self = [] ->
  let lookup := Call_get_by_name (strip (_tag self)) custom in
  let (r0, s1) := get_by_name (strip (_tag self)) custom (store w) in
  let '(outcome, final, rest) :=
    match r0 with
    | Raised e => (Raised (reraised e), s1, logged e)
    | Returned tag =>
        let related :=
          if truthy_list (_objects_to_tag self)
          then [Call_create_tag_relationship
                  (batch self) tag (_bulk_create self)]
          else [] in
        let (r1, s2) :=
          if truthy_list (_objects_to_tag self)
          then create_tag_relationship
                 (batch self) tag (_bulk_create self) s1
          else (Returned tt, s1) in
        match r1 with
        | Raised e => (Raised (reraised e), s2, (related ++ logged e)%list)
        | Returned _ =>
            match (if truthy_str (_description self)
                   then _description self else None) with
            | Some d =>
                let (r2, s3) := commit (set_description tag d s2) in
                (run_outcome r2, s3,
                 (related ++ [Set_description tag d; Call_commit]
                  ++ run_log r2)%list)
            | None => (Returned tt, s2, related)
            end
        end
    end in
  run self w
  = (outcome, {| store := final; trace := trace w ++ lookup :: rest |})
  /\ existsb is_get_by_name rest = false.
Proof.
  intros Ok lookup. subst lookup. unfold_run. rewrite Ok.
  destruct (get_by_name (strip (_tag self)) custom (store w))
    as [[tag|e] s1] eqn:G; simpl.
  - destruct (truthy_list (_objects_to_tag self)); simpl.
    + destruct (create_tag_relationship (batch self) tag
                  (_bulk_create self) s1) as [[[]|e] s2]; simpl.
      * destruct (truthy_str (_description self)); simpl.
        -- destruct (_description self) as [d|]; simpl.
           ++ destruct (commit (set_description tag d s2))
                as [[[]|[c|ex|what]] s3]; simpl;
                rewrite <- ?app_assoc; split; reflexivity.
           ++ rewrite <- ?app_assoc; split; reflexivity.
        -- rewrite <- ?app_assoc; split; reflexivity.
      * destruct e as [c|ex|what]; simpl; rewrite <- ?app_assoc;
          split; reflexivity.
    + destruct (truthy_str (_description self)); simpl.
      * destruct (_description self) as [d|]; simpl.
        -- destruct (commit (set_description tag d s1))
             as [[[]|[c|ex|what]] s3]; simpl;
             rewrite <- ?app_assoc; split; reflexivity.
        -- split; reflexivity.
      * split; reflexivity.
  - destruct e as [c|ex|what]; simpl; rewrite <- ?app_assoc;
      split; reflexivity.
Qed.

(** C10: with the description absent or the empty string, nothing [run]
    does is a description assignment or a commit, and the run is the one of
    the same request without a description: only a non-empty description
    reaches the Tag. *)
Theorem falsy_description_no_update (self : t) (w : World Store TagRef) :
  _description self = None \/ _description self = Some "" ->
  (exists events,
      trace (snd (run self w)) = (trace w ++ events)%list
      /\ existsb is_description_update events = false)
  /\ run self w
     = run {| _tag := _tag self;
              _objects_to_tag := _objects_to_tag self;
              _description := None;
              _bulk_create := _bulk_create self |} w.
Proof.
  intros E.
  assert (T : truthy_str (_description self) = false)
    by (destruct E as [E|E]; rewrite E; reflexivity).
  split.
  - unfold_run. rewrite T.
    destruct (validate_exceptions self); simpl.
    + destruct (get_by_name (strip (_tag self)) custom (store w))
        as [[tag|e] s1]; simpl.
      * destruct (truthy_list (_objects_to_tag self)); simpl.
        -- destruct (create_tag_relationship (batch self) tag
                       (_bulk_create self) s1) as [[[]|[c|ex|what]] s2];
             simpl; rewrite <- ?app_assoc; simpl; eexists; split;
             reflexivity.
        -- eexists; split; reflexivity.
      * destruct e as [c|ex|what]; simpl; rewrite <- ?app_assoc; simpl;
          eexists; split; reflexivity.
    + exists []. split; [now rewrite app_nil_r|reflexivity].
  - unfold_run. unfold validate_exceptions, batch. simpl. rewrite T.
    reflexivity.
Qed.

End BulkRun.

(* ------------------------------------------------------------------ *)
(** ** The commands on the modelled store *)

Section OnTheStore.
Import SpecModel.

Lemma TagTypes_eqb_refl (k : TagTypes) : TagTypes_eqb k k = true.
Proof. destruct k; reflexivity. Qed.

Lemma named_new (nm : string) (k : TagTypes) (d : option string) :
  named nm k {| tag_name := nm; tag_kind := k; tag_description := d |} = true.
Proof.
  unfold named; simpl. now rewrite String.eqb_refl, TagTypes_eqb_refl.
Qed.

Lemma find_index_none {A} (p : A -> bool) (l : list A) :
  find_index p l = None -> filter p l = [].
Proof.
  induction l as [|x l IH]; simpl; [reflexivity|].
  destruct (p x); [discriminate|].
  destruct (find_index p l); [discriminate|auto].
Qed.

Lemma find_index_some {A} (p : A -> bool) (l : list A) (i : nat) :
  find_index p l = Some i -> (1 <= List.length (filter p l))%nat.
Proof.
  revert i. induction l as [|x l IH]; simpl; intros i H; [discriminate|].
  destruct (p x); simpl; [lia|].
  destruct (find_index p l) as [j|]; [eauto|discriminate].
Qed.

Lemma find_index_app_new {A} (p : A -> bool) (l : list A) (x : A) :
  find_index p l = None -> p x = true ->
  find_index p (l ++ [x]) = Some (List.length l).
Proof.
  intros N Px. induction l as [|y l IH]; simpl in *.
  - now rewrite Px.
  - destruct (p y); [discriminate|].
    destruct (find_index p l); [discriminate|].
    now rewrite IH.
Qed.

(** The lookup-or-create leaves the Tag findable under its name, adds a Tag
    only when there was none, and touches no association. *)
Lemma lookup_or_create_spec (nm : string) (k : TagTypes) (db db' : Db)
    (i : nat) :
  lookup_or_create nm k db = (i, db') ->
  find_index (named nm k) (tags db') = Some i
  /\ count_named nm k db' = Nat.max 1 (count_named nm k db)
  /\ tagged_objects db' = tagged_objects db.
Proof.
  unfold lookup_or_create, count_named.
  destruct (find_index (named nm k) (tags db)) as [j|] eqn:F;
    intros E; inversion E; subst; clear E; cbn [tags tagged_objects].
  - split; [exact F|]. split; [|reflexivity].
    apply find_index_some in F. lia.
  - split; [apply find_index_app_new; auto using named_new|].
    split; [|reflexivity].
    rewrite filter_app, length_app, (find_index_none _ _ F).
    cbn [filter]. now rewrite named_new.
Qed.

Lemma set_nth_find {A} (p : A -> bool) (f : A -> A) (l : list A) (i : nat) :
  (forall x, p (f x) = p x) ->
  find_index p l = Some i ->
  exists x, find p l = Some x /\ find p (set_nth i f l) = Some (f x).
Proof.
  intros Pf. revert i.
  induction l as [|y l IH]; simpl; intros i H; [discriminate|].
  destruct (p y) eqn:Py.
  - inversion H; subst. simpl. rewrite Pf, Py. eauto.
  - destruct (find_index p l) as [j|]; [|discriminate].
    inversion H; subst. simpl. rewrite Py. eauto.
Qed.

Lemma set_nth_filter_length {A} (p : A -> bool) (f : A -> A) (l : list A)
    (i : nat) :
  (forall x, p (f x) = p x) ->
  List.length (filter p (set_nth i f l)) = List.length (filter p l).
Proof.
  intros Pf. revert i.
  induction l as [|y l IH]; intros [|i]; simpl; try reflexivity.
  - rewrite Pf. destruct (p y); reflexivity.
  - destruct (p y); simpl; now rewrite IH.
Qed.

(** Assigning a description reaches the Tag a lookup by name finds, and
    neither adds nor removes a Tag. *)
Lemma describe_found (nm : string) (k : TagTypes) (db : Db) (i : nat)
    (d : string) :
  find_index (named nm k) (tags db) = Some i ->
  description_of nm k (describe i d db) = Some (Some d).
Proof.
  intros F. unfold description_of, describe; simpl.
  destruct (set_nth_find (named nm k)
              (fun t => {| tag_name := tag_name t; tag_kind := tag_kind t;
                           tag_description := Some d |})
              (tags db) i) as [x [_ Hx]]; [reflexivity|exact F|].
  rewrite Hx. reflexivity.
Qed.

Lemma describe_count (nm : string) (k : TagTypes) (db : Db) (i : nat)
    (d : string) :
  count_named nm k (describe i d db) = count_named nm k db.
Proof.
  unfold count_named, describe; simpl.
  now apply set_nth_filter_length.
Qed.

Context {R : Resolver}.

(** One run of the batch command with an empty batch on the store: the
    pending view after it, when a description is applied and when not. *)
Lemma store_run_described (nm d : string) (objs : option (list (Token * Z)))
    (bulk : bool) (w : World Session nat) :
  truthy_list objs = false -> d <> "" ->
  let (i, db) := lookup_or_create (strip nm) custom (pending (store w)) in
  exists events,
    CreateCustomTagWithRelationshipsCommand.run (D := dao)
      (bulk_request nm objs (Some d) bulk) w
    = (Returned tt,
       {| store := {| pending := describe i d db;
                      durable := describe i d db |};
          trace := events |}).
Proof.
  intros T Ne.
  destruct (lookup_or_create (strip nm) custom (pending (store w)))
    as [i db] eqn:L.
  unfold_run.
  unfold CreateCustomTagWithRelationshipsCommand.validate_exceptions,
    bulk_request, CreateCustomTagWithRelationshipsCommand.init; simpl.
  rewrite T, L; simpl.
  destruct d as [|a d]; [congruence|]. simpl.
  eexists. reflexivity.
Qed.

Lemma store_run_undescribed (nm : string) (d : option string)
    (objs : option (list (Token * Z))) (bulk : bool)
    (w : World Session nat) :
  truthy_list objs = false -> truthy_str d = false ->
  let (i, db) := lookup_or_create (strip nm) custom (pending (store w)) in
  exists events,
    CreateCustomTagWithRelationshipsCommand.run (D := dao)
      (bulk_request nm objs d bulk) w
    = (Returned tt,
       {| store := {| pending := db; durable := durable (store w) |};
          trace := events |}).
Proof.
  intros T F.
  destruct (lookup_or_create (strip nm) custom (pending (store w)))
    as [i db] eqn:L.
  unfold_run.
  unfold CreateCustomTagWithRelationshipsCommand.validate_exceptions,
    bulk_request, CreateCustomTagWithRelationshipsCommand.init; simpl.
  rewrite T, L, F; simpl.
  eexists. reflexivity.
Qed.

(** After any run with an empty batch the store holds at least one Tag of
    that name, and exactly one when it held at most one before. *)
Lemma store_run_count (nm : string) (d : option string)
    (objs : option (list (Token * Z))) (bulk : bool)
    (w : World Session nat) :
  truthy_list objs = false ->
  fst (CreateCustomTagWithRelationshipsCommand.run (D := dao)
         (bulk_request nm objs d bulk) w) = Returned tt
  /\ count_named (strip nm) custom
       (pending (store (snd (CreateCustomTagWithRelationshipsCommand.run
                               (D := dao)
                               (bulk_request nm objs d bulk) w))))
     = Nat.max 1 (count_named (strip nm) custom (pending (store w))).
Proof.
  intros T.
  destruct (truthy_str d) eqn:Td.
  - destruct d as [[|a d]|]; try discriminate.
    pose proof (store_run_described nm (String a d) objs bulk w T) as H.
    destruct (lookup_or_create (strip nm) custom (pending (store w)))
      as [i db] eqn:L.
    destruct H as [events H]; [congruence|]. rewrite H; simpl.
    split; [reflexivity|]. rewrite describe_count.
    now apply lookup_or_create_spec in L.
  - pose proof (store_run_undescribed nm d objs bulk w T Td) as H.
    destruct (lookup_or_create (strip nm) custom (pending (store w)))
      as [i db] eqn:L.
    destruct H as [events H]. rewrite H; simpl.
    split; [reflexivity|]. now apply lookup_or_create_spec in L.
Qed.

(** C7 (as amended): two runs with the same tag name and an empty batch,
    the second with a non-empty description, on a store that holds at most
    one Tag of that name: both return, the store ends with exactly one Tag
    of that name, its description is the second one, and that state is
    committed. *)
Theorem last_description_wins
    (nm d2 : string) (d1 : option string)
    (objs1 objs2 : option (list (Token * Z))) (bulk1 bulk2 : bool)
    (w : World Session nat) :
  truthy_list objs1 = false -> truthy_list objs2 = false ->
  d2 <> "" ->
  (count_named (strip nm) custom (pending (store w)) <= 1)%nat ->
  let first := CreateCustomTagWithRelationshipsCommand.run (D := dao)
                 (bulk_request nm objs1 d1 bulk1) w in
  let second := CreateCustomTagWithRelationshipsCommand.run (D := dao)
                  (bulk_request nm objs2 (Some d2) bulk2) (snd first) in
  fst first = Returned tt
  /\ fst second = Returned tt
  /\ count_named (strip nm) custom (pending (store (snd second))) = 1%nat
  /\ description_of (strip nm) custom (pending (store (snd second)))
     = Some (Some d2)
  /\ durable (store (snd second)) = pending (store (snd second)).
Proof.
  intros T1 T2 Ne Uniq first second.
  destruct (store_run_count nm d1 objs1 bulk1 w T1) as [R1 C1].
  fold first in R1, C1.
  split; [exact R1|].
  pose proof (store_run_described nm d2 objs2 bulk2 (snd first) T2 Ne) as H.
  destruct (lookup_or_create (strip nm) custom (pending (store (snd first))))
    as [i db] eqn:L.
  destruct H as [events H]. subst second. rewrite H; simpl.
  apply lookup_or_create_spec in L. destruct L as [F [C _]].
  split; [reflexivity|]. split; [|split; [|reflexivity]].
  - rewrite describe_count, C, C1. lia.
  - now apply describe_found.
Qed.

(** On the store, the description-only request leaves the description
    committed on the Tag of that name and adds no association. *)
Lemma store_description_only_request
    (nm d : string) (objs : option (list (Token * Z))) (bulk : bool)
    (w : World Session nat) :
  truthy_list objs = false -> d <> "" ->
  let after := store (snd (CreateCustomTagWithRelationshipsCommand.run
                             (D := dao)
                             (bulk_request nm objs (Some d) bulk) w)) in
  description_of (strip nm) custom (durable after) = Some (Some d)
  /\ tagged_objects (durable after) = tagged_objects (pending (store w))
  /\ count_named (strip nm) custom (durable after)
     = Nat.max 1 (count_named (strip nm) custom (pending (store w))).
Proof.
  intros T Ne after. subst after.
  pose proof (store_run_described nm d objs bulk w T Ne) as H.
  destruct (lookup_or_create (strip nm) custom (pending (store w)))
    as [i db] eqn:L.
  destruct H as [events H]. rewrite H; simpl.
  apply lookup_or_create_spec in L. destruct L as [F [C A]].
  split; [now apply describe_found|]. split; [exact A|].
  now rewrite describe_count.
Qed.

Lemma find_app_some {A} (p : A -> bool) (l l' : list A) (x : A) :
  find p l = Some x -> find p (l ++ l') = Some x.
Proof.
  induction l as [|y l IH]; simpl; [discriminate|].
  destruct (p y); auto.
Qed.

Lemma lookup_or_create_keeps (nm nm' : string) (k k' : TagTypes) (db : Db)
    (x : option string) :
  description_of nm' k' db = Some x ->
  description_of nm' k' (snd (lookup_or_create nm k db)) = Some x.
Proof.
  unfold lookup_or_create, description_of.
  destruct (find_index (named nm k) (tags db)); simpl; [auto|].
  destruct (find (named nm' k') (tags db)) as [t|] eqn:F; [|discriminate].
  now rewrite (find_app_some _ _ _ _ F).
Qed.

Lemma associate_tags (tag : nat) (ot : ObjectTypes) (id : Z) (db : Db) :
  tags (associate tag ot id db) = tags db.
Proof.
  unfold associate.
  destruct (existsb (associated tag ot id) (tagged_objects db)); reflexivity.
Qed.

Lemma relate_tags (objs : list (Token * Z)) (tag : nat) (db : Db) :
  tags (relate objs tag db) = tags db.
Proof.
  unfold relate. revert db.
  induction objs as [|[tok id] objs IH]; intros db; simpl; [reflexivity|].
  rewrite IH. destruct (resolve tok); [apply associate_tags|reflexivity].
Qed.

(** On the store, a run without a truthy description leaves every
    description where it was, whether the gateway works or rejects the
    relationships. *)
Lemma store_falsy_description_keeps
    (self : CreateCustomTagWithRelationshipsCommand.t)
    (why : option string) (w : World Session nat)
    (nm' : string) (k' : TagTypes) (x : option string) :
  truthy_str (CreateCustomTagWithRelationshipsCommand._description self)
  = false ->
  description_of nm' k' (pending (store w)) = Some x ->
  description_of nm' k'
    (pending (store (snd (CreateCustomTagWithRelationshipsCommand.run
                            (D := match why with
                                  | Some text => broken text
                                  | None => dao
                                  end)
                            self w)))) = Some x.
Proof.
  intros T Hx. unfold_run. rewrite T.
  destruct (CreateCustomTagWithRelationshipsCommand.validate_exceptions self);
    simpl; [|exact Hx].
  pose proof (lookup_or_create_keeps
                (strip (CreateCustomTagWithRelationshipsCommand._tag self))
                nm' custom k' _ x Hx) as K.
  destruct why as [text|]; simpl;
    destruct (lookup_or_create
                (strip (CreateCustomTagWithRelationshipsCommand._tag self))
                custom (pending (store w))) as [i db]; simpl in *;
    destruct (truthy_list
                (CreateCustomTagWithRelationshipsCommand._objects_to_tag self));
    simpl; try exact K.
  unfold description_of. rewrite relate_tags. exact K.
Qed.

End OnTheStore.

(* ------------------------------------------------------------------ *)
(** ** The theorems at concrete requests *)

Example str_int_zero : str_int 0 = "0".
Proof. reflexivity. Qed.

Example str_int_negative : str_int (-15) = "-15".
Proof. reflexivity. Qed.

Example strip_name : strip "  q1 	" = "q1".
Proof. reflexivity. Qed.

Example strip_keeps_inner_blank : strip " a b " = "a b".
Proof. reflexivity. Qed.

(** The spec's scenario for the single-object command: two runs on an empty
    store leave three Tags and three associations, "a" not duplicated. *)
Example create_twice_on_empty_store :
  let c1 := {| CreateCustomTagCommand._object_type := TokStr "chart";
               CreateCustomTagCommand._object_id := 42;
               CreateCustomTagCommand._tags := ["a"; "b"] |} in
  let c2 := {| CreateCustomTagCommand._object_type := TokStr "chart";
               CreateCustomTagCommand._object_id := 42;
               CreateCustomTagCommand._tags := ["a"; "c"] |} in
  let w1 := snd (CreateCustomTagCommand.run
                   (R := SpecModel.resolver) (D := SpecModel.dao)
                   c1 SpecModel.empty_world) in
  let w2 := snd (CreateCustomTagCommand.run
                   (R := SpecModel.resolver) (D := SpecModel.dao) c2 w1) in
  map SpecModel.tag_name (SpecModel.tags (SpecModel.pending (store w2)))
  = ["a"; "b"; "c"]
  /\ map SpecModel.tagged_tag
       (SpecModel.tagged_objects (SpecModel.pending (store w2)))
     = [0%nat; 1%nat; 2%nat].
Proof. split; reflexivity. Qed.

(** C7, the claim as stated, fails: when the second description is the
    empty string, the Tag keeps the first one. *)
Lemma empty_second_description_keeps_first :
  let first := CreateCustomTagWithRelationshipsCommand.run
                 (R := SpecModel.resolver) (D := SpecModel.dao)
                 (bulk_request "q1" (Some []) (Some "first") false)
                 SpecModel.empty_world in
  let second := CreateCustomTagWithRelationshipsCommand.run
                  (R := SpecModel.resolver) (D := SpecModel.dao)
                  (bulk_request "q1" (Some []) (Some "") false)
                  (snd first) in
  fst first = Returned tt
  /\ fst second = Returned tt
  /\ SpecModel.description_of "q1" custom
       (SpecModel.pending (store (snd second))) = Some (Some "first")
  /\ SpecModel.description_of "q1" custom
       (SpecModel.pending (store (snd second))) <> Some (Some "").
Proof.
  split; [reflexivity|]. split; [reflexivity|]. split; [reflexivity|].
  vm_compute; discriminate.
Qed.

Lemma last_description_wins_witness :
  let first := CreateCustomTagWithRelationshipsCommand.run
                 (R := SpecModel.resolver) (D := SpecModel.dao)
                 (bulk_request "q1" (Some []) (Some "first") false)
                 SpecModel.empty_world in
  let second := CreateCustomTagWithRelationshipsCommand.run
                  (R := SpecModel.resolver) (D := SpecModel.dao)
                  (bulk_request "q1" (Some []) (Some "second") false)
                  (snd first) in
  SpecModel.count_named "q1" custom
    (SpecModel.pending (store (snd second))) = 1%nat
  /\ SpecModel.description_of "q1" custom
       (SpecModel.pending (store (snd second))) = Some (Some "second").
Proof.
  destruct (last_description_wins (R := SpecModel.resolver)
              "q1" "second" (Some "first") (Some []) (Some []) false false
              SpecModel.empty_world) as [_ [_ [C [Hd _]]]].
  - reflexivity.
  - reflexivity.
  - discriminate.
  - vm_compute; lia.
  - split; [exact C|exact Hd].
Defined.

Lemma relationship_failure_skips_description_witness :
  let self := bulk_request " q1 " (Some [(TokStr "chart", 7)])
                (Some "desc") true in
  let s1 := {| SpecModel.pending :=
                 {| SpecModel.tags :=
                      [{| SpecModel.tag_name := "q1";
                          SpecModel.tag_kind := custom;
                          SpecModel.tag_description := None |}];
                    SpecModel.tagged_objects := [] |};
               SpecModel.durable := SpecModel.empty_db |} in
  CreateCustomTagWithRelationshipsCommand.run
    (R := SpecModel.resolver) (D := SpecModel.broken "insert failed")
    self SpecModel.empty_world
  = (Raised (CommandError
               (TagCreateFailedError None
                  (Some {| exception := "insert failed" |}))),
     {| store := s1;
        trace := [Call_get_by_name "q1" custom;
                  Call_create_tag_relationship
                    [(TokStr "chart", 7)] 0%nat true;
                  Log_exception "insert failed"] |}).
Proof.
  apply (relationship_failure_skips_description
           (R := SpecModel.resolver) (D := SpecModel.broken "insert failed")
           (bulk_request " q1 " (Some [(TokStr "chart", 7)])
              (Some "desc") true)
           SpecModel.empty_world 0%nat
           {| SpecModel.pending :=
                {| SpecModel.tags :=
                     [{| SpecModel.tag_name := "q1";
                         SpecModel.tag_kind := custom;
                         SpecModel.tag_description := None |}];
                   SpecModel.tagged_objects := [] |};
              SpecModel.durable := SpecModel.empty_db |}
           {| SpecModel.pending :=
                {| SpecModel.tags :=
                     [{| SpecModel.tag_name := "q1";
                         SpecModel.tag_kind := custom;
                         SpecModel.tag_description := None |}];
                   SpecModel.tagged_objects := [] |};
              SpecModel.durable := SpecModel.empty_db |}
           (DAOError {| exception := "insert failed" |})).
  - reflexivity.
  - reflexivity.
  - reflexivity.
  - reflexivity.
Defined.

Lemma description_only_request_witness :
  let described :=
    {| SpecModel.tags :=
         [{| SpecModel.tag_name := "q1";
             SpecModel.tag_kind := custom;
             SpecModel.tag_description := Some "desc" |}];
       SpecModel.tagged_objects := [] |} in
  CreateCustomTagWithRelationshipsCommand.run
    (R := SpecModel.resolver) (D := SpecModel.dao)
    (bulk_request "q1" (Some []) (Some "desc") false) SpecModel.empty_world
  = (Returned tt,
     {| store := {| SpecModel.pending := described;
                    SpecModel.durable := described |};
        trace := [Call_get_by_name "q1" custom;
                  Set_description 0%nat "desc";
                  Call_commit] |}).
Proof.
  apply (description_only_request
           (R := SpecModel.resolver) (D := SpecModel.dao)
           "q1" "desc" (Some []) false SpecModel.empty_world 0%nat
           {| SpecModel.pending :=
                {| SpecModel.tags :=
                     [{| SpecModel.tag_name := "q1";
                         SpecModel.tag_kind := custom;
                         SpecModel.tag_description := None |}];
                   SpecModel.tagged_objects := [] |};
              SpecModel.durable := SpecModel.empty_db |}).
  - left; reflexivity.
  - discriminate.
  - reflexivity.
  - reflexivity.
Defined.

Lemma tag_resolved_once_first_witness :
  let self := bulk_request " q1 " (Some [(TokStr "chart", 7)])
                (Some "desc") false in
  CreateCustomTagWithRelationshipsCommand.validate_exceptions
    (R := SpecModel.resolver) self = []
  /\ fst (CreateCustomTagWithRelationshipsCommand.run
            (R := SpecModel.resolver) (D := SpecModel.dao)
            self SpecModel.empty_world) = Returned tt
  /\ trace (snd (CreateCustomTagWithRelationshipsCommand.run
                   (R := SpecModel.resolver) (D := SpecModel.dao)
                   self SpecModel.empty_world))
     = [Call_get_by_name "q1" custom;
        Call_create_tag_relationship [(TokStr "chart", 7)] 0%nat false;
        Set_description 0%nat "desc";
        Call_commit]
  /\ SpecModel.tagged_objects
       (SpecModel.durable
          (store (snd (CreateCustomTagWithRelationshipsCommand.run
                         (R := SpecModel.resolver) (D := SpecModel.dao)
                         self SpecModel.empty_world))))
     = [{| SpecModel.tagged_tag := 0%nat;
           SpecModel.tagged_object_type := chart;
           SpecModel.tagged_object_id := 7 |}].
Proof.
  cbv zeta. split; [reflexivity|].
  destruct (tag_resolved_once_first
              (R := SpecModel.resolver) (D := SpecModel.dao)
              (bulk_request " q1 " (Some [(TokStr "chart", 7)])
                 (Some "desc") false)
              SpecModel.empty_world) as [Run _]; [reflexivity|].
  rewrite Run. repeat split; reflexivity.
Defined.

Lemma falsy_description_no_update_witness :
  let self := bulk_request "q1" (Some [(TokStr "chart", 7)])
                (Some "") false in
  CreateCustomTagWithRelationshipsCommand._description self = Some ""
  /\ exists events,
      trace (snd (CreateCustomTagWithRelationshipsCommand.run
                    (R := SpecModel.resolver) (D := SpecModel.dao)
                    self SpecModel.empty_world))
      = events
      /\ existsb is_description_update events = false.
Proof.
  split; [reflexivity|].
  apply (falsy_description_no_update
           (R := SpecModel.resolver) (D := SpecModel.dao)
           (bulk_request "q1" (Some [(TokStr "chart", 7)]) (Some "") false)
           SpecModel.empty_world).
  right; reflexivity.
Defined.


(* ------------------------------------------------------------------ *)
(** ** More about validation *)

Section MoreValidation.
Context {R : Resolver} {Store TagRef : Type}.

(** X1: [CreateCustomTagCommand.validate] returns, leaving the world alone,
    exactly when the object id is not 0 and the object type resolves. *)
Theorem create_validate_passes_iff
    (self : CreateCustomTagCommand.t) (w : World Store TagRef) :
  CreateCustomTagCommand.validate self w = (Returned tt, w)
  <-> (CreateCustomTagCommand._object_id self <> 0
       /\ unresolved (CreateCustomTagCommand._object_type self) = false).
Proof.
  unfold CreateCustomTagCommand.validate,
    CreateCustomTagCommand.validate_exceptions, ret, raise.
  destruct (CreateCustomTagCommand._object_id self =? 0) eqn:Z0;
    destruct (unresolved (CreateCustomTagCommand._object_type self)) eqn:U;
    simpl; split; intros H; try discriminate.
  - destruct H as [_ H]; discriminate.
  - destruct H as [H _]. apply Z.eqb_eq in Z0. contradiction.
  - destruct H as [_ H]; discriminate.
  - split; [|reflexivity]. now apply Z.eqb_neq.
  - reflexivity.
Qed.

(** X2: the two checks of [CreateCustomTagCommand.validate] do not stop at
    the first failure: with id 0 and a type that does not resolve, the
    error raised carries both failures, the one for the id first. *)
Theorem create_validate_aggregates_both
    (self : CreateCustomTagCommand.t) (w : World Store TagRef) :
  CreateCustomTagCommand._object_id self = 0 ->
  to_object_type (CreateCustomTagCommand._object_type self) = None ->
  CreateCustomTagCommand.validate self w
  = (Raised (CommandError
               (TagInvalidError None
                  [TagCreateFailedError None None;
                   TagCreateFailedError
                     (Some ("invalid object type "
                            ++ str_Token
                                 (CreateCustomTagCommand._object_type self)))
                     None])), w).
Proof.
  intros Z0 U.
  unfold CreateCustomTagCommand.validate,
    CreateCustomTagCommand.validate_exceptions, unresolved.
  rewrite Z0, U. reflexivity.
Qed.

Lemma filter_length_bound {A} (p : A -> bool) (l : list A) :
  (List.length (filter p l) <= List.length l)%nat.
Proof.
  induction l as [|x l IH]; simpl; [lia|].
  destruct (p x); simpl; lia.
Qed.

(** X3: [CreateCustomTagWithRelationshipsCommand.validate] returns, leaving
    the world alone, exactly when the batch is missing or empty, or when no
    pair has id 0 and every type resolves. *)
Theorem bulk_validate_passes_iff
    (self : CreateCustomTagWithRelationshipsCommand.t)
    (w : World Store TagRef) :
  CreateCustomTagWithRelationshipsCommand.validate self w = (Returned tt, w)
  <-> (truthy_list
         (CreateCustomTagWithRelationshipsCommand._objects_to_tag self)
       = false
       \/ (zero_ids (CreateCustomTagWithRelationshipsCommand.batch self)
           = 0%nat
           /\ unresolved_types
                (CreateCustomTagWithRelationshipsCommand.batch self)
              = 0%nat)).
Proof.
  unfold CreateCustomTagWithRelationshipsCommand.validate,
    CreateCustomTagWithRelationshipsCommand.validate_exceptions, ret, raise.
  destruct (truthy_list
              (CreateCustomTagWithRelationshipsCommand._objects_to_tag self));
    [|split; auto].
  rewrite any_zero_id_zero_ids, <- type_exceptions_length.
  destruct (zero_ids (CreateCustomTagWithRelationshipsCommand.batch self));
    simpl.
  - destruct (CreateCustomTagWithRelationshipsCommand.type_exceptions
                (CreateCustomTagWithRelationshipsCommand.batch self));
      simpl; split; intros H; auto; try discriminate.
    destruct H as [H|[_ H]]; discriminate.
  - split; intros H; [discriminate|].
    destruct H as [H|[H _]]; discriminate.
Qed.

(** X4: whatever the request, the batch command reports one failure per
    pair whose type does not resolve, plus one more when any id is 0: never
    more than the number of pairs plus one. *)
Theorem bulk_validate_failure_count
    (self : CreateCustomTagWithRelationshipsCommand.t) :
  List.length
    (CreateCustomTagWithRelationshipsCommand.validate_exceptions self)
  = (Nat.min 1 (zero_ids (CreateCustomTagWithRelationshipsCommand.batch self))
     + unresolved_types (CreateCustomTagWithRelationshipsCommand.batch self))
      %nat
  /\ (List.length
        (CreateCustomTagWithRelationshipsCommand.validate_exceptions self)
      <= 1 + List.length (CreateCustomTagWithRelationshipsCommand.batch self))
       %nat.
Proof.
  assert (E : List.length
                (CreateCustomTagWithRelationshipsCommand.validate_exceptions
                   self)
              = (Nat.min 1 (zero_ids
                              (CreateCustomTagWithRelationshipsCommand.batch
                                 self))
                 + unresolved_types
                     (CreateCustomTagWithRelationshipsCommand.batch self))
                  %nat).
  { unfold CreateCustomTagWithRelationshipsCommand.validate_exceptions,
      CreateCustomTagWithRelationshipsCommand.batch.
    destruct (CreateCustomTagWithRelationshipsCommand._objects_to_tag self)
      as [[|o objs]|]; try reflexivity.
    cbn [truthy_list]. rewrite any_zero_id_zero_ids, length_app.
    rewrite type_exceptions_length.
    destruct (zero_ids (o :: objs)); reflexivity. }
  split; [exact E|]. rewrite E.
  pose proof (filter_length_bound
                (fun '(obj_type, _) => unresolved obj_type)
                (CreateCustomTagWithRelationshipsCommand.batch self)) as B.
  unfold unresolved_types. lia.
Qed.

End MoreValidation.

Lemma create_validate_aggregates_both_witness :
  let self := {| CreateCustomTagCommand._object_type := TokStr "sheet";
                 CreateCustomTagCommand._object_id := 0;
                 CreateCustomTagCommand._tags := ["a"] |} in
  CreateCustomTagCommand.validate (R := SpecModel.resolver)
    self SpecModel.empty_world
  = (Raised (CommandError
               (TagInvalidError None
                  [TagCreateFailedError None None;
                   TagCreateFailedError
                     (Some "invalid object type sheet") None])),
     SpecModel.empty_world).
Proof.
  apply (create_validate_aggregates_both (R := SpecModel.resolver)
           {| CreateCustomTagCommand._object_type := TokStr "sheet";
              CreateCustomTagCommand._object_id := 0;
              CreateCustomTagCommand._tags := ["a"] |}
           SpecModel.empty_world).
  - reflexivity.
  - reflexivity.
Defined.

(* ------------------------------------------------------------------ *)
(** ** More about run *)

Section MoreRun.
Context {R : Resolver} {Store TagRef : Type} {D : TagDAO Store TagRef}.

(** X5: on a valid request [CreateCustomTagCommand.run] makes exactly one
    gateway call, [create_custom_tagged_objects] with the resolved type,
    the id and the tag names as they were given; it returns when the call
    returns, and otherwise raises what [run] makes of the call's exception,
    logging a [DAOCreateFailedError].  The check on the type inside [run]
    never fires. *)
Theorem create_run_single_call
    (self : CreateCustomTagCommand.t) (w : World Store TagRef)
    (object_type : ObjectTypes) :
  CreateCustomTagCommand._object_id self <> 0 ->
  to_object_type (CreateCustomTagCommand._object_type self)
  = Some object_type ->
  CreateCustomTagCommand.run self w
  = (let (r, s) := create_custom_tagged_objects object_type
                     (CreateCustomTagCommand._object_id self)
                     (CreateCustomTagCommand._tags self) (store w) in
     (run_outcome r,
      {| store := s;
         trace := trace w
                  ++ Call_create_custom_tagged_objects object_type
                       (CreateCustomTagCommand._object_id self)
                       (CreateCustomTagCommand._tags self)
                     :: run_log r |})).
Proof.
  intros Nz T. apply Z.eqb_neq in Nz.
  unfold_run. unfold CreateCustomTagCommand.validate_exceptions, unresolved.
  rewrite Nz, T. simpl.
  destruct (create_custom_tagged_objects object_type
              (CreateCustomTagCommand._object_id self)
              (CreateCustomTagCommand._tags self) (store w))
    as [[[]|[c|ex|what]] s]; simpl; rewrite <- ?app_assoc; reflexivity.
Qed.

(** X6: a valid request with a non-empty batch and a non-empty description,
    on a gateway whose calls all return, makes [run] return after four
    steps in this order: the lookup, one relationship call with the whole
    batch and the bulk flag as given, the description assignment, the
    commit. *)
Theorem bulk_run_full_request
    (self : CreateCustomTagWithRelationshipsCommand.t)
    (w : World Store TagRef) (tag : TagRef) (d : string)
    (s1 s2 s3 : Store) :
  CreateCustomTagWithRelationshipsCommand.validate_exceptions self = [] ->
  truthy_list (CreateCustomTagWithRelationshipsCommand._objects_to_tag self)
  = true ->
  CreateCustomTagWithRelationshipsCommand._description self = Some d ->
  d <> "" ->
  get_by_name (strip (CreateCustomTagWithRelationshipsCommand._tag self))
    custom (store w) = (Returned tag, s1) ->
  create_tag_relationship
    (CreateCustomTagWithRelationshipsCommand.batch self) tag
    (CreateCustomTagWithRelationshipsCommand._bulk_create self) s1
  = (Returned tt, s2) ->
  commit (set_description tag d s2) = (Returned tt, s3) ->
  CreateCustomTagWithRelationshipsCommand.run self w
  = (Returned tt,
     {| store := s3;
        trace := trace w
                 ++ [Call_get_by_name
                       (strip (CreateCustomTagWithRelationshipsCommand._tag
                                 self)) custom;
                     Call_create_tag_relationship
                       (CreateCustomTagWithRelationshipsCommand.batch self)
                       tag
                       (CreateCustomTagWithRelationshipsCommand._bulk_create
                          self);
                     Set_description tag d;
                     Call_commit] |}).
Proof.
  intros Ok T Hd Ne G Rel C.
  unfold_run. rewrite Ok, G, T, Hd. simpl. rewrite Rel.
  destruct d as [|a d]; [congruence|]. simpl. rewrite C.
  rewrite <- !app_assoc. reflexivity.
Qed.

(** X7: when the commit raises, [run] raises what it makes of that
    exception and stops there: the store is the one the failed commit left,
    reached from the store in which the relationships were already created
    and the description already assigned; no call follows the commit to
    undo either. *)
Theorem bulk_run_commit_failure
    (self : CreateCustomTagWithRelationshipsCommand.t)
    (w : World Store TagRef) (tag : TagRef) (d : string)
    (s1 s2 s3 : Store) (e : PyException) :
  CreateCustomTagWithRelationshipsCommand.validate_exceptions self = [] ->
  truthy_list (CreateCustomTagWithRelationshipsCommand._objects_to_tag self)
  = true ->
  CreateCustomTagWithRelationshipsCommand._description self = Some d ->
  d <> "" ->
  get_by_name (strip (CreateCustomTagWithRelationshipsCommand._tag self))
    custom (store w) = (Returned tag, s1) ->
  create_tag_relationship
    (CreateCustomTagWithRelationshipsCommand.batch self) tag
    (CreateCustomTagWithRelationshipsCommand._bulk_create self) s1
  = (Returned tt, s2) ->
  commit (set_description tag d s2) = (Raised e, s3) ->
  CreateCustomTagWithRelationshipsCommand.run self w
  = (Raised (reraised e),
     {| store := s3;
        trace := trace w
                 ++ [Call_get_by_name
                       (strip (CreateCustomTagWithRelationshipsCommand._tag
                                 self)) custom;
                     Call_create_tag_relationship
                       (CreateCustomTagWithRelationshipsCommand.batch self)
                       tag
                       (CreateCustomTagWithRelationshipsCommand._bulk_create
                          self);
                     Set_description tag d;
                     Call_commit]
                 ++ logged e |}).
Proof.
  intros Ok T Hd Ne G Rel C.
  unfold_run. rewrite Ok, G, T, Hd. simpl. rewrite Rel.
  destruct d as [|a d]; [congruence|]. simpl. rewrite C.
  destruct e as [c|ex|what]; simpl; rewrite <- ?app_assoc; reflexivity.
Qed.

(** X8: when the lookup of the Tag raises, [run] raises what it makes of
    that exception after this one call: no relationship is created and no
    description is assigned, whatever the request carried. *)
Theorem bulk_run_lookup_failure
    (self : CreateCustomTagWithRelationshipsCommand.t)
    (w : World Store TagRef) (s1 : Store) (e : PyException) :
  CreateCustomTagWithRelationshipsCommand.validate_exceptions self = [] ->
  get_by_name (strip (CreateCustomTagWithRelationshipsCommand._tag self))
    custom (store w) = (Raised e, s1) ->
  CreateCustomTagWithRelationshipsCommand.run self w
  = (Raised (reraised e),
     {| store := s1;
        trace := trace w
                 ++ Call_get_by_name
                      (strip (CreateCustomTagWithRelationshipsCommand._tag
                                self)) custom
                    :: logged e |}).
Proof.
  intros Ok G. unfold_run. rewrite Ok, G.
  destruct e as [c|ex|what]; simpl; rewrite <- ?app_assoc; reflexivity.
Qed.

(** X9: [run] of either command catches [DAOCreateFailedError] only: any
    other exception that ends the [try] block reaches the caller as it is,
    with nothing logged. *)
Theorem other_exceptions_pass_through
    (cmd : Command) (w w' : World Store TagRef) (e : PyException) :
  Command_validate_exceptions cmd = [] ->
  Command_run_body cmd w = (Raised e, w') ->
  (forall ex, e <> DAOError ex) ->
  Command_run cmd w = (Raised e, w').
Proof.
  intros Ok Body Other.
  rewrite (run_valid cmd w Ok).
  unfold try_except_DAOCreateFailedError. rewrite Body.
  destruct e as [c|ex|what]; try reflexivity.
  exfalso. apply (Other ex). reflexivity.
Qed.

(** Whatever ends the [try] block of the batch command with an exception is
    an exception of one of its three gateway calls. *)
Lemma bulk_body_raise_origin
    (c : CreateCustomTagWithRelationshipsCommand.t)
    (w w' : World Store TagRef) (e : PyException) :
  CreateCustomTagWithRelationshipsCommand.run_body c w = (Raised e, w') ->
  (exists nm kind s, fst (get_by_name nm kind s) = Raised e)
  \/ (exists objs tag bulk s,
         fst (create_tag_relationship objs tag bulk s) = Raised e)
  \/ (exists s, fst (commit s) = Raised e).
Proof.
  unfold_run.
  destruct (get_by_name (strip (CreateCustomTagWithRelationshipsCommand._tag c))
              custom (store w)) as [[tag|e0] s1] eqn:G; simpl.
  - destruct (truthy_list
                (CreateCustomTagWithRelationshipsCommand._objects_to_tag c));
      simpl.
    + destruct (create_tag_relationship
                  (CreateCustomTagWithRelationshipsCommand.batch c) tag
                  (CreateCustomTagWithRelationshipsCommand._bulk_create c) s1)
        as [[[]|e0] s2] eqn:Rel; simpl.
      * destruct (truthy_str
                    (CreateCustomTagWithRelationshipsCommand._description c));
          simpl; [|discriminate].
        destruct (CreateCustomTagWithRelationshipsCommand._description c)
          as [d|]; simpl; [|discriminate].
        destruct (commit (set_description tag d s2)) as [r s3] eqn:C.
        intros H; inversion H; subst. right; right.
        exists (set_description tag d s2). now rewrite C.
      * intros H; inversion H; subst. right; left.
        do 4 eexists. now rewrite Rel.
    + destruct (truthy_str
                  (CreateCustomTagWithRelationshipsCommand._description c));
        simpl; [|discriminate].
      destruct (CreateCustomTagWithRelationshipsCommand._description c)
        as [d|]; simpl; [|discriminate].
      destruct (commit (set_description tag d s1)) as [r s3] eqn:C.
      intros H; inversion H; subst. right; right.
      exists (set_description tag d s1). now rewrite C.
  - intros H; inversion H; subst. left. do 3 eexists. now rewrite G.
Qed.

Lemma run_invalid_head (cmd : Command) (w : World Store TagRef) :
  Command_validate_exceptions cmd <> [] ->
  fst (Command_run cmd w)
  = Raised (CommandError
              (TagInvalidError None (Command_validate_exceptions cmd))).
Proof.
  intros Bad. destruct cmd as [c|c]; simpl in *.
  - unfold CreateCustomTagCommand.run, bind, CreateCustomTagCommand.validate.
    destruct (CreateCustomTagCommand.validate_exceptions c);
      [congruence|reflexivity].
  - unfold CreateCustomTagWithRelationshipsCommand.run, bind,
      CreateCustomTagWithRelationshipsCommand.validate.
    destruct (CreateCustomTagWithRelationshipsCommand.validate_exceptions c);
      [congruence|reflexivity].
Qed.

(** X10: over a gateway that raises nothing but [DAOCreateFailedError],
    [run] of either command ends in one of three ways: it returns; it
    raises [TagInvalidError] with the non-empty list of validation
    failures; or, validation having passed, it raises a message-less
    [TagCreateFailedError] whose cause is the gateway's error. *)
Theorem run_error_kinds (cmd : Command) (w : World Store TagRef) :
  dao_errors_only D ->
  fst (Command_run cmd w) = Returned tt
  \/ (Command_validate_exceptions cmd <> []
      /\ fst (Command_run cmd w)
         = Raised (CommandError
                     (TagInvalidError None (Command_validate_exceptions cmd))))
  \/ (Command_validate_exceptions cmd = []
      /\ exists ex,
          fst (Command_run cmd w)
          = Raised (CommandError (TagCreateFailedError None (Some ex)))).
Proof.
  intros [Hc [Hg [Hr Hm]]].
  destruct (Command_validate_exceptions cmd) eqn:V.
  - rewrite (run_valid cmd w V).
    unfold try_except_DAOCreateFailedError.
    destruct (Command_run_body cmd w) as [[[]|e] w'] eqn:Body; simpl;
      [left; reflexivity|].
    right; right. split; [reflexivity|].
    assert (Dao : exists ex, e = DAOError ex).
    { destruct cmd as [c|c]; simpl in Body, V.
      - unfold CreateCustomTagCommand.run_body, call, raise in Body.
        destruct (to_object_type (CreateCustomTagCommand._object_type c))
          as [ot|] eqn:T.
        + destruct (create_custom_tagged_objects ot
                      (CreateCustomTagCommand._object_id c)
                      (CreateCustomTagCommand._tags c) (store w))
            as [r s] eqn:F.
          inversion Body; subst.
          apply (Hc ot (CreateCustomTagCommand._object_id c)
                   (CreateCustomTagCommand._tags c) (store w)).
          now rewrite F.
        + exfalso.
          unfold CreateCustomTagCommand.validate_exceptions, unresolved in V.
          rewrite T in V.
          destruct (CreateCustomTagCommand._object_id c =? 0); discriminate.
      - destruct (bulk_body_raise_origin c w w' e Body)
          as [[nm [k [s H]]]|[[objs [tag [b [s H]]]]|[s H]]]; eauto. }
    destruct Dao as [ex ->]. exists ex. reflexivity.
  - right; left. split; [discriminate|].
    rewrite <- V. apply run_invalid_head. rewrite V. discriminate.
Qed.

End MoreRun.

(* ------------------------------------------------------------------ *)
(** ** The tag name and the empty batch *)

Section NameAndBatch.
Context {R : Resolver} {Store TagRef : Type} {D : TagDAO Store TagRef}.

Lemma lstrip_head (s : string) :
  lstrip s = EmptyString
  \/ exists c rest, lstrip s = String c rest /\ py_isspace c = false.
Proof.
  induction s as [|c s IH]; simpl; [left; reflexivity|].
  destruct (py_isspace c) eqn:Sp; [exact IH|].
  right. exists c, s. split; [reflexivity|exact Sp].
Qed.

Lemma rstrip_head (c : ascii) (rest : string) :
  py_isspace c = false ->
  exists kept, rstrip (String c rest) = String c kept.
Proof.
  intros Sp. cbn [rstrip]. rewrite Sp.
  destruct (rstrip rest); eauto.
Qed.

Lemma rstrip_idempotent (s : string) : rstrip (rstrip s) = rstrip s.
Proof.
  induction s as [|c s IH]; [reflexivity|].
  cbn [rstrip].
  destruct (rstrip s) as [|a kept] eqn:K.
  - destruct (py_isspace c) eqn:Sp; [reflexivity|].
    cbn [rstrip]. now rewrite Sp.
  - cbn [rstrip] in *. cbn [rstrip]. now rewrite IH.
Qed.

(** Stripping a stripped name changes nothing. *)
Lemma strip_idempotent (s : string) : strip (strip s) = strip s.
Proof.
  unfold strip.
  destruct (lstrip_head s) as [E|[c [rest [E Sp]]]]; rewrite E.
  - reflexivity.
  - destruct (rstrip_head c rest Sp) as [kept K]. rewrite K.
    cbn [lstrip]. rewrite Sp. rewrite <- K. apply rstrip_idempotent.
Qed.

(** X11: the batch command uses the tag name only stripped: a request
    naming the tag with blanks around it runs exactly as the request that
    names it without them. *)
Theorem bulk_run_name_stripped
    (self : CreateCustomTagWithRelationshipsCommand.t)
    (w : World Store TagRef) :
  CreateCustomTagWithRelationshipsCommand.run self w
  = CreateCustomTagWithRelationshipsCommand.run
      {| CreateCustomTagWithRelationshipsCommand._tag :=
           strip (CreateCustomTagWithRelationshipsCommand._tag self);
         CreateCustomTagWithRelationshipsCommand._objects_to_tag :=
           CreateCustomTagWithRelationshipsCommand._objects_to_tag self;
         CreateCustomTagWithRelationshipsCommand._description :=
           CreateCustomTagWithRelationshipsCommand._description self;
         CreateCustomTagWithRelationshipsCommand._bulk_create :=
           CreateCustomTagWithRelationshipsCommand._bulk_create self |} w.
Proof.
  unfold_run.
  unfold CreateCustomTagWithRelationshipsCommand.validate_exceptions,
    CreateCustomTagWithRelationshipsCommand.batch.
  cbn [CreateCustomTagWithRelationshipsCommand._tag
       CreateCustomTagWithRelationshipsCommand._objects_to_tag
       CreateCustomTagWithRelationshipsCommand._description
       CreateCustomTagWithRelationshipsCommand._bulk_create].
  rewrite strip_idempotent. reflexivity.
Qed.

(** X12: a request without the [objects_to_tag] key and a request with an
    empty list run the same way, and the bulk flag plays no part in either:
    validation passes and no relationship call is made. *)
Theorem bulk_run_empty_batch
    (nm : string) (objs : option (list (Token * Z))) (d : option string)
    (bulk : bool) (w : World Store TagRef) :
  objs = None \/ objs = Some [] ->
  CreateCustomTagWithRelationshipsCommand.validate_exceptions
    (bulk_request nm objs d bulk) = []
  /\ CreateCustomTagWithRelationshipsCommand.run
       (bulk_request nm objs d bulk) w
     = CreateCustomTagWithRelationshipsCommand.run
         (bulk_request nm None d false) w
  /\ existsb (fun ev => match ev with
                        | Call_create_tag_relationship _ _ _ => true
                        | _ => false
                        end)
       (skipn (List.length (trace w))
          (trace (snd (CreateCustomTagWithRelationshipsCommand.run
                         (bulk_request nm objs d bulk) w)))) = false.
Proof.
  intros E.
  assert (T : truthy_list objs = false) by (destruct E; subst; reflexivity).
  split; [|split].
  - unfold CreateCustomTagWithRelationshipsCommand.validate_exceptions,
      bulk_request, CreateCustomTagWithRelationshipsCommand.init; simpl.
    now rewrite T.
  - unfold_run.
    unfold CreateCustomTagWithRelationshipsCommand.validate_exceptions,
      bulk_request, CreateCustomTagWithRelationshipsCommand.init; simpl.
    rewrite T. reflexivity.
  - unfold_run.
    unfold CreateCustomTagWithRelationshipsCommand.validate_exceptions,
      bulk_request, CreateCustomTagWithRelationshipsCommand.init; simpl.
    rewrite T.
    destruct (get_by_name (strip nm) custom (store w)) as [[tag|e] s1]; simpl.
    + destruct (truthy_str d); simpl.
      * destruct d as [d|]; simpl.
        -- destruct (commit (set_description tag d s1))
             as [[[]|[c|ex|what]] s3]; simpl; rewrite <- ?app_assoc;
             rewrite skipn_app, skipn_all, Nat.sub_diag; reflexivity.
        -- rewrite skipn_app, skipn_all, Nat.sub_diag; reflexivity.
      * rewrite skipn_app, skipn_all, Nat.sub_diag; reflexivity.
    + destruct e as [c|ex|what]; simpl; rewrite <- ?app_assoc;
        rewrite skipn_app, skipn_all, Nat.sub_diag; reflexivity.
Qed.

End NameAndBatch.

(* ------------------------------------------------------------------ *)
(** ** The further theorems at concrete requests *)

Lemma create_validate_mentions_token_witness :
  let self := {| CreateCustomTagCommand._object_type := TokInt 9;
                 CreateCustomTagCommand._object_id := 5;
                 CreateCustomTagCommand._tags := ["a"] |} in
  exists e,
    In e (CreateCustomTagCommand.validate_exceptions
            (R := SpecModel.resolver) self)
    /\ mentions "9" e = true.
Proof.
  apply (create_validate_mentions_token (R := SpecModel.resolver)
           {| CreateCustomTagCommand._object_type := TokInt 9;
              CreateCustomTagCommand._object_id := 5;
              CreateCustomTagCommand._tags := ["a"] |}).
  reflexivity.
Defined.

Lemma create_run_single_call_witness :
  let self := {| CreateCustomTagCommand._object_type := TokStr "chart";
                 CreateCustomTagCommand._object_id := 42;
                 CreateCustomTagCommand._tags := ["a"; " a "] |} in
  trace (snd (CreateCustomTagCommand.run
                (R := SpecModel.resolver) (D := SpecModel.dao)
                self SpecModel.empty_world))
  = [Call_create_custom_tagged_objects chart 42 ["a"; " a "]].
Proof.
  cbv zeta.
  rewrite (create_run_single_call
             (R := SpecModel.resolver) (D := SpecModel.dao)
             {| CreateCustomTagCommand._object_type := TokStr "chart";
                CreateCustomTagCommand._object_id := 42;
                CreateCustomTagCommand._tags := ["a"; " a "] |}
             SpecModel.empty_world chart).
  - reflexivity.
  - discriminate.
  - reflexivity.
Defined.

Lemma bulk_run_full_request_witness :
  let self := bulk_request " q1 " (Some [(TokStr "chart", 7); (TokInt 2, 8)])
                (Some "desc") true in
  fst (CreateCustomTagWithRelationshipsCommand.run
         (R := SpecModel.resolver) (D := SpecModel.dao)
         self SpecModel.empty_world) = Returned tt
  /\ trace (snd (CreateCustomTagWithRelationshipsCommand.run
                   (R := SpecModel.resolver) (D := SpecModel.dao)
                   self SpecModel.empty_world))
     = [Call_get_by_name "q1" custom;
        Call_create_tag_relationship
          [(TokStr "chart", 7); (TokInt 2, 8)] 0%nat true;
        Set_description 0%nat "desc";
        Call_commit].
Proof.
  cbv zeta.
  rewrite (bulk_run_full_request
             (R := SpecModel.resolver) (D := SpecModel.dao)
             (bulk_request " q1 " (Some [(TokStr "chart", 7); (TokInt 2, 8)])
                (Some "desc") true)
             SpecModel.empty_world 0%nat "desc"
             (snd (get_by_name (TagDAO := SpecModel.dao) "q1" custom
                     (store SpecModel.empty_world)))
             (snd (create_tag_relationship (TagDAO := SpecModel.dao)
                     [(TokStr "chart", 7); (TokInt 2, 8)] 0%nat true
                     (snd (get_by_name (TagDAO := SpecModel.dao) "q1" custom
                             (store SpecModel.empty_world)))))
             (snd (commit (TagDAO := SpecModel.dao)
                     (set_description (TagDAO := SpecModel.dao) 0%nat "desc"
                        (snd (create_tag_relationship (TagDAO := SpecModel.dao)
                                [(TokStr "chart", 7); (TokInt 2, 8)] 0%nat true
                                (snd (get_by_name (TagDAO := SpecModel.dao)
                                        "q1" custom
                                        (store SpecModel.empty_world))))))))).
  - split; reflexivity.
  - reflexivity.
  - reflexivity.
  - reflexivity.
  - discriminate.
  - reflexivity.
  - reflexivity.
  - reflexivity.
Defined.

Lemma bulk_run_commit_failure_witness :
  let self := bulk_request "q1" (Some [(TokStr "chart", 7)])
                (Some "desc") false in
  let after := CreateCustomTagWithRelationshipsCommand.run
                 (R := SpecModel.resolver)
                 (D := crashing_commit "connection lost")
                 self SpecModel.empty_world in
  fst after = Raised (OtherError "connection lost")
  /\ SpecModel.description_of "q1" custom
       (SpecModel.pending (store (snd after))) = Some (Some "desc")
  /\ SpecModel.tagged_objects (SpecModel.pending (store (snd after)))
     = [{| SpecModel.tagged_tag := 0%nat;
           SpecModel.tagged_object_type := chart;
           SpecModel.tagged_object_id := 7 |}]
  /\ SpecModel.durable (store (snd after)) = SpecModel.empty_db.
Proof.
  cbv zeta.
  rewrite (bulk_run_commit_failure
             (R := SpecModel.resolver) (D := crashing_commit "connection lost")
             (bulk_request "q1" (Some [(TokStr "chart", 7)])
                (Some "desc") false)
             SpecModel.empty_world 0%nat "desc"
             (snd (get_by_name (TagDAO := SpecModel.dao) "q1" custom
                     (store SpecModel.empty_world)))
             (snd (create_tag_relationship (TagDAO := SpecModel.dao)
                     [(TokStr "chart", 7)] 0%nat false
                     (snd (get_by_name (TagDAO := SpecModel.dao) "q1" custom
                             (store SpecModel.empty_world)))))
             (set_description (TagDAO := SpecModel.dao) 0%nat "desc"
                (snd (create_tag_relationship (TagDAO := SpecModel.dao)
                        [(TokStr "chart", 7)] 0%nat false
                        (snd (get_by_name (TagDAO := SpecModel.dao)
                                "q1" custom
                                (store SpecModel.empty_world))))))
             (OtherError "connection lost")).
  - repeat split; reflexivity.
  - reflexivity.
  - reflexivity.
  - reflexivity.
  - discriminate.
  - reflexivity.
  - reflexivity.
  - reflexivity.
Defined.

Lemma bulk_run_lookup_failure_witness :
  let self := bulk_request "q1" (Some [(TokStr "chart", 7)])
                (Some "desc") false in
  CreateCustomTagWithRelationshipsCommand.run
    (R := SpecModel.resolver) (D := unreachable "no connection")
    self SpecModel.empty_world
  = (Raised (CommandError
               (TagCreateFailedError None
                  (Some {| exception := "no connection" |}))),
     {| store := store SpecModel.empty_world;
        trace := [Call_get_by_name "q1" custom;
                  Log_exception "no connection"] |}).
Proof.
  apply (bulk_run_lookup_failure
           (R := SpecModel.resolver) (D := unreachable "no connection")
           (bulk_request "q1" (Some [(TokStr "chart", 7)])
              (Some "desc") false)
           SpecModel.empty_world (store SpecModel.empty_world)
           (DAOError {| exception := "no connection" |})).
  - reflexivity.
  - reflexivity.
Defined.

Lemma other_exceptions_pass_through_witness :
  let cmd := CreateWithRelationships
               (bulk_request "q1" None (Some "desc") false) in
  fst (Command_run (R := SpecModel.resolver)
         (D := crashing_commit "connection lost")
         cmd SpecModel.empty_world)
  = Raised (OtherError "connection lost").
Proof.
  cbv zeta.
  rewrite (other_exceptions_pass_through
             (R := SpecModel.resolver) (D := crashing_commit "connection lost")
             (CreateWithRelationships
                (bulk_request "q1" None (Some "desc") false))
             SpecModel.empty_world
             (snd (Command_run_body (R := SpecModel.resolver)
                     (D := crashing_commit "connection lost")
                     (CreateWithRelationships
                        (bulk_request "q1" None (Some "desc") false))
                     SpecModel.empty_world))
             (OtherError "connection lost")).
  - reflexivity.
  - reflexivity.
  - reflexivity.
  - intros ex; discriminate.
Defined.

Lemma broken_dao_errors_only (why : string) :
  dao_errors_only (SpecModel.broken why).
Proof.
  unfold dao_errors_only. repeat split; intros; simpl in *.
  - inversion H; eauto.
  - destruct (SpecModel.lookup_or_create nm kind (SpecModel.pending s));
      discriminate.
  - inversion H; eauto.
  - inversion H; eauto.
Defined.

Lemma run_error_kinds_witness :
  let cmd := Create {| CreateCustomTagCommand._object_type := TokStr "chart";
                       CreateCustomTagCommand._object_id := 42;
                       CreateCustomTagCommand._tags := ["a"] |} in
  dao_errors_only (SpecModel.broken "insert failed")
  /\ (fst (Command_run (R := SpecModel.resolver)
             (D := SpecModel.broken "insert failed")
             cmd SpecModel.empty_world) = Returned tt
      \/ (Command_validate_exceptions (R := SpecModel.resolver) cmd <> []
          /\ fst (Command_run (R := SpecModel.resolver)
                    (D := SpecModel.broken "insert failed")
                    cmd SpecModel.empty_world)
             = Raised (CommandError
                         (TagInvalidError None
                            (Command_validate_exceptions
                               (R := SpecModel.resolver) cmd))))
      \/ (Command_validate_exceptions (R := SpecModel.resolver) cmd = []
          /\ exists ex,
              fst (Command_run (R := SpecModel.resolver)
                     (D := SpecModel.broken "insert failed")
                     cmd SpecModel.empty_world)
              = Raised (CommandError
                          (TagCreateFailedError None (Some ex))))).
Proof.
  split; [apply broken_dao_errors_only|].
  apply (run_error_kinds (R := SpecModel.resolver)
           (D := SpecModel.broken "insert failed")
           (Create {| CreateCustomTagCommand._object_type := TokStr "chart";
                      CreateCustomTagCommand._object_id := 42;
                      CreateCustomTagCommand._tags := ["a"] |})
           SpecModel.empty_world).
  apply broken_dao_errors_only.
Defined.

Lemma bulk_run_empty_batch_witness :
  CreateCustomTagWithRelationshipsCommand.run
    (R := SpecModel.resolver) (D := SpecModel.dao)
    (bulk_request "q1" (Some []) (Some "desc") true) SpecModel.empty_world
  = CreateCustomTagWithRelationshipsCommand.run
      (R := SpecModel.resolver) (D := SpecModel.dao)
      (bulk_request "q1" None (Some "desc") false) SpecModel.empty_world.
Proof.
  apply (bulk_run_empty_batch
           (R := SpecModel.resolver) (D := SpecModel.dao)
           "q1" (Some []) (Some "desc") true SpecModel.empty_world).
  right; reflexivity.
Defined.

(* ------------------------------------------------------------------ *)
(** ** Gateway failures, operation by operation *)

Section GatewayFailures.
Context {R : Resolver} {Store TagRef : Type} {D : TagDAO Store TagRef}.

(** Over a gateway that raises nothing but [DAOCreateFailedError], whatever
    [run] raises is one of the two command exceptions. *)
Lemma run_raises_command_error (cmd : Command) (w : World Store TagRef)
    (e : PyException) :
  dao_errors_only D ->
  fst (Command_run cmd w) = Raised e ->
  exists c, e = CommandError c.
Proof.
  intros [Hc [Hg [Hr Hm]]].
  destruct (Command_validate_exceptions cmd) eqn:V.
  - rewrite (run_valid cmd w V).
    unfold try_except_DAOCreateFailedError.
    destruct (Command_run_body cmd w) as [[[]|[c|ex|what]] w'] eqn:Body;
      simpl; intros H; inversion H; subst; eauto.
    exfalso.
    assert (Dao : exists ex, OtherError what = DAOError ex).
    { destruct cmd as [c|c]; simpl in Body.
      - unfold CreateCustomTagCommand.run_body, call, raise in Body.
        destruct (to_object_type (CreateCustomTagCommand._object_type c))
          as [ot|]; [|discriminate].
        destruct (create_custom_tagged_objects ot
                    (CreateCustomTagCommand._object_id c)
                    (CreateCustomTagCommand._tags c) (store w))
          as [r s] eqn:F.
        inversion Body; subst.
        apply (Hc ot (CreateCustomTagCommand._object_id c)
                 (CreateCustomTagCommand._tags c) (store w)).
        now rewrite F.
      - destruct (bulk_body_raise_origin c w w' _ Body)
          as [[nm [k [s H0]]]|[[objs [tag [b [s H0]]]]|[s H0]]]; eauto. }
    destruct Dao as [ex Dao]. discriminate.
  - intros H.
    rewrite run_invalid_head in H by (rewrite V; discriminate).
    inversion H; subst. eauto.
Qed.

(** C8: when validation has passed and a gateway operation of the run
    (for the single-object command [create_custom_tagged_objects]; for the
    batch command [get_by_name], [create_tag_relationship] or [commit])
    raises [DAOCreateFailedError], [run] stops at that call, logs the error
    and raises a [TagCreateFailedError] whose cause is that error: the store
    is the one the failed call left and the caller sees a command
    exception, not the gateway's.  And over a gateway that raises nothing
    but its creation failure, no run of either command ends with an
    exception that is not a command exception. *)
Theorem dao_failure_reraised
    (cmd : Command) (w : World Store TagRef) (ex : DAOCreateFailedError)
    (events : list (Event TagRef)) (s : Store) :
  Command_validate_exceptions cmd = [] ->
  gateway_failure (store w) ex cmd events s ->
  Command_run cmd w
  = (Raised (CommandError (TagCreateFailedError None (Some ex))),
     {| store := s;
        trace := trace w ++ events ++ [Log_exception (exception ex)] |})
  /\ (dao_errors_only D ->
      forall (cmd0 : Command) (w0 : World Store TagRef) (e : PyException),
        fst (Command_run cmd0 w0) = Raised e -> exists c, e = CommandError c).
Proof.
  intros Ok Fails. split.
  - rewrite (run_valid cmd w Ok).
    destruct Fails as [c ot s T F|c s G|c tag s1 s G T F|c tag s1 s2 d s G Rel Hd Ne F];
      unfold_run.
    + rewrite T, F. simpl. rewrite <- !app_assoc. reflexivity.
    + rewrite G. simpl. rewrite <- !app_assoc. reflexivity.
    + rewrite G, T. simpl. rewrite F. simpl.
      rewrite <- !app_assoc. reflexivity.
    + rewrite G, Hd.
      destruct (truthy_list
                  (CreateCustomTagWithRelationshipsCommand._objects_to_tag c));
        simpl; [rewrite Rel|inversion Rel; subst];
        (destruct d as [|a d]; [congruence|]); simpl; rewrite F; simpl;
        rewrite <- !app_assoc; reflexivity.
  - intros Only cmd0 w0 e. now apply run_raises_command_error.
Qed.

End GatewayFailures.

Lemma dao_failure_reraised_witness :
  let self := bulk_request "q1" (Some [(TokStr "chart", 7)])
                (Some "desc") true in
  let ex := {| exception := "insert failed" |} in
  let s1 := snd (get_by_name (TagDAO := SpecModel.dao) "q1" custom
                   (store SpecModel.empty_world)) in
  Command_validate_exceptions (R := SpecModel.resolver)
    (CreateWithRelationships self) = []
  /\ Command_run (R := SpecModel.resolver)
       (D := SpecModel.broken "insert failed")
       (CreateWithRelationships self) SpecModel.empty_world
     = (Raised (CommandError (TagCreateFailedError None (Some ex))),
        {| store := s1;
           trace := [Call_get_by_name "q1" custom;
                     Call_create_tag_relationship
                       [(TokStr "chart", 7)] 0%nat true;
                     Log_exception "insert failed"] |}).
Proof.
  cbv zeta. split; [reflexivity|].
  apply (dao_failure_reraised
           (R := SpecModel.resolver) (D := SpecModel.broken "insert failed")
           (CreateWithRelationships
              (bulk_request "q1" (Some [(TokStr "chart", 7)])
                 (Some "desc") true))
           SpecModel.empty_world
           {| exception := "insert failed" |}
           [Call_get_by_name "q1" custom;
            Call_create_tag_relationship [(TokStr "chart", 7)] 0%nat true]
           (snd (get_by_name (TagDAO := SpecModel.dao) "q1" custom
                   (store SpecModel.empty_world)))).
  - reflexivity.
  - apply (create_tag_relationship_fails
             (R := SpecModel.resolver) (D := SpecModel.broken "insert failed")
             (store SpecModel.empty_world) {| exception := "insert failed" |}
             (bulk_request "q1" (Some [(TokStr "chart", 7)])
                (Some "desc") true)
             0%nat
             (snd (get_by_name (TagDAO := SpecModel.dao) "q1" custom
                     (store SpecModel.empty_world)))
             (snd (get_by_name (TagDAO := SpecModel.dao) "q1" custom
                     (store SpecModel.empty_world)))).
    + reflexivity.
    + reflexivity.
    + reflexivity.
Defined.
